(** * Library_graphql: book creation, catalogue search and the CSV importer

    A shallow embedding of [library/schema.py], [library/models.py] and
    [add_books.py].  Python strings are sequences of Unicode code points,
    the Django ORM is an explicit store (a list of rows) threaded through
    every resolver together with a log of the statements sent to it, and
    the importer runs against an oracle for the GraphQL endpoint. *)

From Stdlib Require Import List NArith ZArith Bool String Ascii Lia.
Import ListNotations.

Set Implicit Arguments.

(** ** Python values *)

Module Py.

(** A [str] is a sequence of code points. *)
Definition char := N.
Definition str := list char.

(** A literal of the source text (ASCII only). *)
Definition lit (s : string) : str := map N_of_ascii (list_ascii_of_string s).

Definition str_eqb (a b : str) : bool :=
  if list_eq_dec N.eq_dec a b then true else false.

(** Truth value of a string: [if s:] holds for non-empty strings. *)
Definition truthy (s : str) : bool :=
  match s with
  | [] => false
  | _ :: _ => true
  end.

(** [x or y] on optional strings ([None] and [''] are falsy). *)
Definition or_else (x y : option str) : option str :=
  match x with
  | Some (_ :: _) => x
  | _ => y
  end.

Definition in_range (lo hi c : N) : bool := (lo <=? c)%N && (c <=? hi)%N.

(** Blocks of code points with the Unicode property Decimal_Number (Nd),
    as [(first, length)]; every block starts at a digit zero.  This is
    [Py_UNICODE_ISDECIMAL] for the Unicode 14.0.0 database of CPython
    3.11. *)
Definition decimal_blocks : list (N * N) :=
  [ (0x30, 10); (0x660, 10); (0x6F0, 10); (0x7C0, 10); (0x966, 10);
    (0x9E6, 10); (0xA66, 10); (0xAE6, 10); (0xB66, 10); (0xBE6, 10);
    (0xC66, 10); (0xCE6, 10); (0xD66, 10); (0xDE6, 10); (0xE50, 10);
    (0xED0, 10); (0xF20, 10); (0x1040, 10); (0x1090, 10); (0x17E0, 10);
    (0x1810, 10); (0x1946, 10); (0x19D0, 10); (0x1A80, 10); (0x1A90, 10);
    (0x1B50, 10); (0x1BB0, 10); (0x1C40, 10); (0x1C50, 10); (0xA620, 10);
    (0xA8D0, 10); (0xA900, 10); (0xA9D0, 10); (0xA9F0, 10); (0xAA50, 10);
    (0xABF0, 10); (0xFF10, 10); (0x104A0, 10); (0x10D30, 10); (0x11066, 10);
    (0x110F0, 10); (0x11136, 10); (0x111D0, 10); (0x112F0, 10); (0x11450, 10);
    (0x114D0, 10); (0x11650, 10); (0x116C0, 10); (0x11730, 10); (0x118E0, 10);
    (0x11950, 10); (0x11C50, 10); (0x11D50, 10); (0x11DA0, 10); (0x16A60, 10);
    (0x16AC0, 10); (0x16B50, 10); (0x1D7CE, 50); (0x1E140, 10); (0x1E2F0, 10);
    (0x1E950, 10); (0x1FBF0, 10) ]%N.

Definition in_block (c : N) (b : N * N) : bool :=
  (fst b <=? c)%N && (c <? fst b + snd b)%N.

Definition is_decimal (c : char) : bool := existsb (in_block c) decimal_blocks.

(** [Py_UNICODE_TODECIMAL]: the value of a decimal digit. *)
Definition to_decimal (c : char) : option N :=
  match find (in_block c) decimal_blocks with
  | Some b => Some ((c - fst b) mod 10)%N
  | None => None
  end.

(** [Py_UNICODE_ISSPACE]. *)
Definition is_space (c : char) : bool :=
  in_range 0x09 0x0D c || in_range 0x1C 0x20 c || (c =? 0x85)%N
  || (c =? 0xA0)%N || (c =? 0x1680)%N || in_range 0x2000 0x200A c
  || (c =? 0x2028)%N || (c =? 0x2029)%N || (c =? 0x202F)%N
  || (c =? 0x205F)%N || (c =? 0x3000)%N.

Definition is_ascii_digit (c : char) : bool := in_range 0x30 0x39 c.
Definition is_ascii_lower (c : char) : bool := in_range 0x61 0x7A c.
Definition is_ascii_upper (c : char) : bool := in_range 0x41 0x5A c.

End Py.

(** ** The part of [re] that the schema uses *)

Module Re.
Import Py.

(** Members of a bracket expression. *)
Inductive item :=
| Range (lo hi : char)     (* a-z *)
| Digit                    (* \d  *)
| Space.                   (* \s  *)

Definition item_match (c : char) (i : item) : bool :=
  match i with
  | Range lo hi => in_range lo hi c
  | Digit => is_decimal c
  | Space => is_space c
  end.

Inductive regex :=
| Bol                                   (* ^          *)
| Eol                                   (* $          *)
| Set_ (negated : bool) (items : list item)   (* [..], [^..] *)
| Cat (r1 r2 : regex)                   (* r1 r2      *)
| Opt (r : regex)                       (* (?:r)?     *)
| Rep (n : nat) (r : regex).            (* r{n}       *)

Definition set_match (negated : bool) (items : list item) (c : char) : bool :=
  xorb negated (existsb (item_match c) items).

Section Run.
Variable A : Type.

(** The continuation receives the position reached and the rest of the
    subject; the first success in backtracking order wins. *)
Definition cont := nat -> str -> option A.

Fixpoint repeat_run (f : nat -> str -> cont -> option A) (n : nat)
         (pos : nat) (s : str) (k : cont) : option A :=
  match n with
  | O => k pos s
  | S m => f pos s (fun p t => repeat_run f m p t k)
  end.

Fixpoint run (r : regex) (pos : nat) (s : str) (k : cont) : option A :=
  match r with
  | Bol => if Nat.eqb pos 0 then k pos s else None
  | Eol =>
      (* end of the subject, or just before a newline that ends it *)
      match s with
      | [] => k pos s
      | [c] => if (c =? 10)%N then k pos s else None
      | _ => None
      end
  | Set_ negated items =>
      match s with
      | c :: t => if set_match negated items c then k (S pos) t else None
      | [] => None
      end
  | Cat r1 r2 => run r1 pos s (fun p t => run r2 p t k)
  | Opt r1 =>
      match run r1 pos s k with
      | Some a => Some a
      | None => k pos s
      end
  | Rep n r1 => repeat_run (run r1) n pos s k
  end.
End Run.

(** [re.match(r, s)]: the end of the match anchored at position 0. *)
Definition re_match (r : regex) (s : str) : option (nat * str) :=
  run r 0 s (fun p t => Some (p, t)).

(** [re.sub(r, repl, s)]: every non-overlapping match, leftmost first, is
    replaced.  After an empty match the next attempt at the same position
    must advance (Python 3.7 and later). *)
Fixpoint sub_loop (fuel : nat) (r : regex) (repl : str) (pos : nat) (s : str)
         (must_advance : bool) : str :=
  match fuel with
  | O => s
  | S fuel' =>
      match run r pos s
              (fun p t => if must_advance && Nat.eqb p pos then None
                          else Some (p, t)) with
      | Some (p, t) =>
          repl ++ (if Nat.eqb p pos
                   then sub_loop fuel' r repl pos s true
                   else sub_loop fuel' r repl p t false)
      | None =>
          match s with
          | [] => []
          | c :: s' => c :: sub_loop fuel' r repl (S pos) s' false
          end
      end
  end.

Definition re_sub (r : regex) (repl : str) (s : str) : str :=
  sub_loop (2 * List.length s + 2) r repl 0 s false.

Definition digit : regex := Set_ false [Digit].

End Re.

(** ** [datetime.date.fromisoformat] *)

Module Datetime.
Import Py.
Local Open Scope Z_scope.

Record date := mkdate { year : Z; month : Z; day : Z }.

Definition MINYEAR := 1.
Definition MAXYEAR := 9999.

Definition is_leap (y : Z) : bool :=
  (y mod 4 =? 0) && (negb (y mod 100 =? 0) || (y mod 400 =? 0)).

(** Index 0 of both tables is unused, as in [_datetimemodule.c]. *)
Definition _days_in_month : list Z :=
  [0; 31; 28; 31; 30; 31; 30; 31; 31; 30; 31; 30; 31].
Definition _days_before_month : list Z :=
  [0; 0; 31; 59; 90; 120; 151; 181; 212; 243; 273; 304; 334].

Definition days_in_month (y m : Z) : Z :=
  if (m =? 2) && is_leap y then 29 else nth (Z.to_nat m) _days_in_month 0.

Definition days_before_month (y m : Z) : Z :=
  nth (Z.to_nat m) _days_before_month 0
  + (if (2 <? m) && is_leap y then 1 else 0).

Definition days_before_year (y : Z) : Z :=
  let y1 := y - 1 in y1 * 365 + y1 / 4 - y1 / 100 + y1 / 400.

Definition ymd_to_ord (y m d : Z) : Z :=
  days_before_year y + days_before_month y m + d.

Definition weekday (y m d : Z) : Z := (ymd_to_ord y m d + 6) mod 7.

Definition DI4Y := 1461.
Definition DI100Y := 36524.
Definition DI400Y := 146097.

(** Only called on ordinals of year 1 and later. *)
Definition ord_to_ymd (ordinal : Z) : date :=
  let ordinal := ordinal - 1 in
  let n400 := ordinal / DI400Y in
  let n := ordinal mod DI400Y in
  let n100 := n / DI100Y in
  let n := n mod DI100Y in
  let n4 := n / DI4Y in
  let n := n mod DI4Y in
  let n1 := n / 365 in
  let n := n mod 365 in
  let y := n400 * 400 + 1 + n100 * 100 + n4 * 4 + n1 in
  if (n1 =? 4) || (n100 =? 4) then mkdate (y - 1) 12 31
  else
    let leapyear := (n1 =? 3) && (negb (n4 =? 24) || (n100 =? 3)) in
    let m := Z.shiftr (n + 50) 5 in
    let preceding :=
      nth (Z.to_nat m) _days_before_month 0
      + (if (2 <? m) && leapyear then 1 else 0) in
    if n <? preceding
    then mkdate y (m - 1) (n - (preceding - days_in_month y (m - 1)) + 1)
    else mkdate y m (n - preceding + 1).

Definition iso_week1_monday (y : Z) : Z :=
  let first_day := ymd_to_ord y 1 1 in
  let first_weekday := (first_day + 6) mod 7 in
  let week1_monday := first_day - first_weekday in
  if 3 <? first_weekday then week1_monday + 7 else week1_monday.

(** A week date of year 0 is refused, like any date of year 0. *)
Definition iso_to_ymd (iso_year iso_week iso_day : Z) : option date :=
  if (iso_year <? MINYEAR) || (MAXYEAR <? iso_year) then None
  else
    let out_of_range :=
      if (iso_week <=? 0) || (53 <=? iso_week) then
        if iso_week =? 53 then
          let first_weekday := weekday iso_year 1 1 in
          negb ((first_weekday =? 3)
                || ((first_weekday =? 2) && is_leap iso_year))
        else true
      else false in
    if out_of_range then None
    else if (iso_day <=? 0) || (8 <=? iso_day) then None
    else
      let day_1 := iso_week1_monday iso_year in
      let day_offset := (iso_week - 1) * 7 + iso_day - 1 in
      Some (ord_to_ymd (day_1 + day_offset)).

(** [check_date_args], run by the [date] constructor. *)
Definition check_date_args (d : date) : bool :=
  (MINYEAR <=? year d) && (year d <=? MAXYEAR)
  && (1 <=? month d) && (month d <=? 12)
  && (1 <=? day d) && (day d <=? days_in_month (year d) (month d)).

(** The parser reads the UTF-8 encoding of the argument; a lone surrogate
    has none. *)
Definition utf8_char (c : char) : option (list N) :=
  (if c <? 0x80 then Some [c]
   else if c <? 0x800 then Some [0xC0 + c / 64; 0x80 + c mod 64]
   else if (0xD800 <=? c) && (c <=? 0xDFFF) then None
   else if c <? 0x10000
        then Some [0xE0 + c / 4096; 0x80 + (c / 64) mod 64; 0x80 + c mod 64]
   else Some [0xF0 + c / 262144; 0x80 + (c / 4096) mod 64;
              0x80 + (c / 64) mod 64; 0x80 + c mod 64])%N.

Fixpoint utf8 (s : str) : option (list N) :=
  match s with
  | [] => Some []
  | c :: t =>
      match utf8_char c, utf8 t with
      | Some b, Some bs => Some (b ++ bs)
      | _, _ => None
      end
  end.

(** A pointer into the NUL-terminated buffer is the list of bytes that
    remain; reading at the terminator yields 0. *)
Definition peek (p : list N) : N := hd 0%N p.

Fixpoint parse_digits (p : list N) (var : Z) (num_digits : nat)
  : option (list N * Z) :=
  match num_digits with
  | O => Some (p, var)
  | S k =>
      let c := peek p in
      if (0x30 <=? c)%N && (c <=? 0x39)%N
      then parse_digits (tl p) (var * 10 + Z.of_N (c - 0x30)) k
      else None
  end.

Definition dash : N := 0x2D.
Definition letter_W : N := 0x57.

Definition parse_isoformat_date (dtstr : list N) : option date :=
  match parse_digits dtstr 0 4 with
  | None => None
  | Some (p, y) =>
      let uses_separator := (peek p =? dash)%N in
      let p := if uses_separator then tl p else p in
      if (peek p =? letter_W)%N then
        (* an isocalendar-style date string *)
        match parse_digits (tl p) 0 2 with
        | None => None
        | Some (p, iso_week) =>
            match p with
            | [] => iso_to_ymd y iso_week 1
            | _ :: _ =>
                if uses_separator && negb (peek p =? dash)%N then None
                else
                  let p := if uses_separator then tl p else p in
                  match parse_digits p 0 1 with
                  | None => None
                  | Some (_, iso_day) => iso_to_ymd y iso_week iso_day
                  end
            end
        end
      else
        match parse_digits p 0 2 with
        | None => None
        | Some (p, m) =>
            if uses_separator && negb (peek p =? dash)%N then None
            else
              let p := if uses_separator then tl p else p in
              match parse_digits p 0 2 with
              | None => None
              | Some (_, d) => Some (mkdate y m d)
              end
        end
  end.

(** [date.fromisoformat] of CPython 3.11 and later; [None] stands for the
    [ValueError] it raises. *)
Definition fromisoformat (date_string : str) : option date :=
  match utf8 date_string with
  | None => None
  | Some dt =>
      let len := List.length dt in
      if Nat.eqb len 7 || Nat.eqb len 8 || Nat.eqb len 10 then
        match parse_isoformat_date dt with
        | Some d => if check_date_args d then Some d else None
        | None => None
        end
      else None
  end.

Definition date_eqb (a b : date) : bool :=
  (year a =? year b) && (month a =? month b) && (day a =? day b).

End Datetime.

(** ** [library/models.py]: the Book table *)

Module Models.
Import Py.

Record Book := mkBook {
  pk : Z;                          (* the implicit AutoField *)
  title : str;
  author : str;
  published_date : Datetime.date;
  isbn_number : str;               (* unique=True *)
  pages : Z;
  cover_image : option str;        (* null=True *)
  language : str
}.

Definition Book_eq_dec : forall a b : Book, {a = b} + {a <> b}.
Proof.
  repeat decide equality.
Defined.

(** Statements that reach the database. *)
Inductive statement :=
| SelectExists (isbn : str)        (* filter(isbn_number=..).exists() *)
| Insert (isbn : str)              (* objects.create(..)              *)
| SelectSearch (q : str).          (* the search queryset, evaluated  *)

Definition is_write (st : statement) : bool :=
  match st with
  | Insert _ => true
  | _ => false
  end.

Record db := mkdb {
  table : list Book;
  log : list statement             (* oldest first *)
}.

Inductive exn :=
| IntegrityError | UnboundLocalError | UnicodeEncodeError | OperationalError.

Inductive result (A : Type) :=
| Ok (a : A)
| Raise (e : exn).
Arguments Raise {A} e.

(** Code that talks to the database threads it and may raise. *)
Definition M (A : Type) := db -> result A * db.

Definition ret {A} (a : A) : M A := fun d => (Ok a, d).
Definition raise {A} (e : exn) : M A := fun d => (Raise e, d).
Definition bind {A B} (m : M A) (f : A -> M B) : M B :=
  fun d =>
    match m d with
    | (Ok a, d') => f a d'
    | (Raise e, d') => (Raise e, d')
    end.

Definition has_isbn (isbn : str) (b : Book) : bool :=
  str_eqb (isbn_number b) isbn.

(** A string can be bound to a statement when it has a UTF-8 encoding,
    that is when it holds no lone surrogate; otherwise the driver raises
    UnicodeEncodeError and the statement is not run. *)
Definition encodable (s : str) : bool :=
  match Datetime.utf8 s with
  | Some _ => true
  | None => false
  end.

Definition encodable_opt (x : option str) : bool :=
  match x with
  | Some s => encodable s
  | None => true
  end.

(** [Book.objects.filter(isbn_number=isbn).exists()] *)
Definition exists_isbn (isbn : str) : M bool :=
  fun d =>
    if encodable isbn
    then (Ok (existsb (has_isbn isbn) (table d)),
          mkdb (table d) (log d ++ [SelectExists isbn]))
    else (Raise UnicodeEncodeError, d).

Definition next_pk (t : list Book) : Z :=
  fold_right (fun b m => Z.max (pk b + 1) m) 1%Z t.

(** [Book.objects.create(..)]: a text value without a UTF-8 encoding
    cannot be bound, and the INSERT is refused by the unique index on
    isbn_number when the value is taken.  Column widths are not checked
    (SQLite, Django's default backend, does not); [pages] arrives as a
    32-bit Int of the GraphQL layer. *)
Definition create (title author : str) (published_date : Datetime.date)
           (isbn_number : str) (pages : Z) (cover_image : option str)
           (language : str) : M Book :=
  fun d =>
    if negb (encodable title && encodable author && encodable isbn_number
             && encodable_opt cover_image && encodable language)
    then (Raise UnicodeEncodeError, d)
    else
      let d' := mkdb (table d) (log d ++ [Insert isbn_number]) in
      if existsb (has_isbn isbn_number) (table d)
      then (Raise IntegrityError, d')
      else
        let b := mkBook (next_pk (table d)) title author published_date
                        isbn_number pages cover_image language in
        (Ok b, mkdb (table d ++ [b]) (log d')).

(** [field__icontains=q] is [field LIKE '%q%' ESCAPE '\'] with the
    wildcards and backslashes of [q] escaped, so [q] is matched letter by
    letter.  LIKE ignores the case of ASCII letters and reads the column
    and the pattern as C strings, up to their first NUL: a pattern cut in
    this way has lost its closing '%' and must match at the end of the
    column. *)
Definition upper (c : char) : char :=
  if is_ascii_lower c then (c - 32)%N else c.

Fixpoint c_string (s : str) : str :=
  match s with
  | [] => []
  | c :: t => if (c =? 0)%N then [] else c :: c_string t
  end.

Fixpoint starts_with (p s : str) : bool :=
  match p, s with
  | [], _ => true
  | _ :: _, [] => false
  | a :: p', b :: s' => (a =? b)%N && starts_with p' s'
  end.

Fixpoint contains (p s : str) : bool :=
  starts_with p s
  || match s with
     | [] => false
     | _ :: s' => contains p s'
     end.

Definition ends_with (p s : str) : bool := starts_with (rev p) (rev s).

Definition has_nul (s : str) : bool := existsb (fun c => (c =? 0)%N) s.

Definition icontains (field q : str) : bool :=
  if has_nul q
  then ends_with (map upper (c_string q)) (map upper (c_string field))
  else contains (map upper q) (map upper (c_string field)).

(** [prep_for_like_query]: backslash, '%' and '_' get a backslash. *)
Definition like_escape (c : char) : str :=
  if (c =? 0x5C)%N || (c =? 0x25)%N || (c =? 0x5F)%N then [0x5C%N; c]
  else [c].

Definition like_pattern (q : str) : str :=
  [0x25%N] ++ flat_map like_escape q ++ [0x25%N].

(** SQLITE_MAX_LIKE_PATTERN_LENGTH, in bytes of the pattern. *)
Definition max_like_pattern : N := 50000.

Definition pattern_too_long (bytes : list N) : bool :=
  (max_like_pattern <? N.of_nat (List.length bytes))%N.

Definition has_rows (t : list Book) : bool :=
  match t with
  | [] => false
  | _ :: _ => true
  end.

(** The [Q(..) | Q(..) | Q(..) | Q(..)] of the search. *)
Definition search_Q (q : str) (b : Book) : bool :=
  icontains (title b) q || icontains (author b) q
  || icontains (isbn_number b) q || icontains (language b) q.

(** [Book.objects.filter(Q).distinct()], evaluated.  The LIKE of the
    first row it meets raises OperationalError ("LIKE or GLOB pattern too
    complex") when the pattern is longer than the limit. *)
Definition search (q : str) : M (list Book) :=
  fun d =>
    match Datetime.utf8 (like_pattern q) with
    | None => (Raise UnicodeEncodeError, d)
    | Some bytes =>
        let d' := mkdb (table d) (log d ++ [SelectSearch q]) in
        if has_rows (table d) && pattern_too_long bytes
        then (Raise OperationalError, d')
        else (Ok (nodup Book_eq_dec (filter (search_Q q) (table d))), d')
    end.

End Models.

(** ** [library/schema.py] *)

Module Schema.
Import Py Re Models.

Notation "x <- m ;; k" := (bind m (fun x => k))
  (at level 61, m at next level, right associativity).

(** r'[^a-zA-Z0-9\s]' *)
Definition sanitize_re : regex :=
  Set_ true [Range 0x61 0x7A; Range 0x41 0x5A; Range 0x30 0x39; Space]%N.

(** r'^\d{10}(?:\d{3})?$' *)
Definition isbn_re : regex :=
  Cat Bol (Cat (Rep 10 digit) (Cat (Opt (Rep 3 digit)) Eol)).

(** [Query.resolve_search_books]; [Book.objects.none()] never reaches the
    database. *)
Definition resolve_search_books (query : option str) : M (list Book) :=
  match query with
  | None | Some [] => ret []
  | Some query =>
      let sanitized_query := re_sub sanitize_re [] query in
      if negb (truthy sanitized_query) then ret []
      else search sanitized_query
  end.

Record Arguments := mkArguments {
  arg_title : str;
  arg_author : str;
  arg_published_date : str;
  arg_isbn_number : str;
  arg_pages : Z;
  arg_cover_image : option str;
  arg_language : str
}.

(** The payload of the mutation. *)
Record CreateBook := mkCreateBook {
  book : option Book;
  ok : bool;
  errors : list str
}.

Definition isbn_error : str := lit "ISBN must be 10 or 13 digits.".
Definition date_error : str :=
  lit "published_date must be in YYYY-MM-DD format.".
Definition duplicate_error : str := lit "Book with this ISBN already exists.".

(** The two checks at the head of [mutate]: the error list and the value
    bound to [pub_date], if any. *)
Definition validate (published_date isbn_number : str)
  : list str * option Datetime.date :=
  let errors := [] in
  let errors :=
    match re_match isbn_re isbn_number with
    | None => errors ++ [isbn_error]
    | Some _ => errors
    end in
  match Datetime.fromisoformat published_date with
  | Some pub_date => (errors, Some pub_date)
  | None => (errors ++ [date_error], None)
  end.

(** [CreateBook.mutate] *)
Definition mutate (a : Arguments) : M CreateBook :=
  let '(errors, pub_date) :=
    validate (arg_published_date a) (arg_isbn_number a) in
  match errors with
  | _ :: _ => ret (mkCreateBook None false errors)
  | [] =>
      found <- exists_isbn (arg_isbn_number a) ;;
      if found : bool
      then ret (mkCreateBook None false [duplicate_error])
      else
        match pub_date with
        | None => raise UnboundLocalError
        | Some pub_date =>
            book <- create (arg_title a) (arg_author a) pub_date
                           (arg_isbn_number a) (arg_pages a)
                           (arg_cover_image a) (arg_language a) ;;
            ret (mkCreateBook (Some book) true [])
        end
  end.

End Schema.

(** ** [add_books.py]: the importer *)

Module AddBooks.
Import Py.
Local Open Scope Z_scope.

(** What [r.json()] can return.  Numbers are integers here; the importer
    only tests them for zero. *)
#[local] Set Warnings "-register-all".
Inductive json :=
| JNull
| JBool (b : bool)
| JNum (z : Z)
| JStr (s : str)
| JList (l : list json)
| JDict (items : list (str * json)).

Definition truthy (j : json) : bool :=
  match j with
  | JNull => false
  | JBool b => b
  | JNum z => negb (z =? 0)
  | JStr s => Py.truthy s
  | JList [] => false
  | JList (_ :: _) => true
  | JDict [] => false
  | JDict (_ :: _) => true
  end.

Definition get {V} (d : list (str * V)) (key : str) : option V :=
  match find (fun kv => str_eqb (fst kv) key) d with
  | Some kv => Some (snd kv)
  | None => None
  end.

Inductive exn := ValueError | AttributeError | OSError | TypeError.

Inductive result (A : Type) :=
| Ok (a : A)
| Raise (e : exn).
Arguments Raise {A} e.

(** *** [int(s)] for a string [s] *)

(** [_PyUnicode_TransformDecimalAndSpaceToASCII], one code point at a
    time ('?' marks a code point that no number contains). *)
Definition to_ascii (c : char) : char :=
  if (c <? 127)%N then c
  else if is_space c then 0x20%N
  else match to_decimal c with
       | Some d => (0x30 + d)%N
       | None => 0x3F%N
       end.

Definition Py_ISSPACE (c : char) : bool := in_range 0x09 0x0D c || (c =? 0x20)%N.

Fixpoint skip_spaces (s : str) : str :=
  match s with
  | c :: t => if Py_ISSPACE c then skip_spaces t else s
  | [] => []
  end.

Definition underscore : char := 0x5F%N.

(** The digit scan of [long_from_string_base]: one underscore at a time,
    none at the end.  Returns the rest, the value and the digit count. *)
Fixpoint scan_digits (s : str) (prev : char) (acc : Z) (digits : nat)
  : option (str * Z * nat) :=
  match s with
  | c :: t =>
      if is_ascii_digit c
      then scan_digits t c (acc * 10 + Z.of_N (c - 0x30)) (S digits)
      else if (c =? underscore)%N
           then if (prev =? underscore)%N then None
                else scan_digits t c acc digits
           else if (prev =? underscore)%N then None
                else Some (s, acc, digits)
  | [] => if (prev =? underscore)%N then None else Some (s, acc, digits)
  end.

Definition max_str_digits : nat := 4300.

Definition int_of_str (s : str) : option Z :=
  let buffer := if forallb (fun c => (c <? 128)%N) s then s
                else map to_ascii s in
  let p := skip_spaces buffer in
  let '(negative, p) :=
    match p with
    | c :: t => if (c =? 0x2B)%N then (false, t)
                else if (c =? 0x2D)%N then (true, t)
                else (false, p)
    | [] => (false, p)
    end in
  if (hd 0%N p =? underscore)%N then None
  else
    match scan_digits p 0%N 0 0 with
    | None => None
    | Some (rest, z, digits) =>
        if Nat.eqb digits 0 then None
        else if Nat.ltb max_str_digits digits then None
        else
          match skip_spaces rest with
          | [] => Some (if negative then - z else z)
          | _ :: _ => None
          end
    end.

(** *** The endpoint *)

(** The [variables] of the mutation request. *)
Record variables := mkvariables {
  v_title : option str;
  v_author : option str;
  v_publishedDate : option str;
  v_isbnNumber : option str;
  v_pages : option Z;
  v_coverImage : option str;
  v_language : option str
}.

(** What [requests.post] meets: an exception, or a response whose body
    may or may not be JSON. *)
Inductive reply :=
| NetworkError (message : str)
| Response (text : str) (parsed : option json).

(** [argparse]'s namespace. *)
Record args := mkargs {
  url : str;
  a_title : option str;
  a_author : option str;
  a_published_date : option str;
  a_isbn : option str;
  a_pages : option Z;
  a_cover_image : option str;
  a_language : option str;
  csv : option str
}.

(** A row of [csv.DictReader]: a missing cell is [None]. *)
Definition csv_row := list (str * option str).

Definition row_get (row : csv_row) (key : string) : option str :=
  match get row (lit key) with
  | Some cell => cell
  | None => None
  end.

(** How the interpreter ends. *)
Inductive outcome :=
| Exit (status : Z)                (* sys.exit(status)            *)
| Uncaught (e : exn).              (* traceback, exit status 1    *)

Definition exit_status (o : outcome) : Z :=
  match o with
  | Exit status => status
  | Uncaught _ => 1
  end.

Section Importer.
(** The server, as seen from the client: the reply to a request, given
    the requests sent to [url] before it. *)
Variable endpoint : str -> list variables -> variables -> reply.
(** The file system: the rows of a CSV file, [None] if it cannot be
    opened. *)
Variable read_csv : str -> option (list csv_row).

(** Requests sent so far, oldest first. *)
Definition sent := list variables.

Definition post_book (url : str) (vars : variables) (n : sent)
  : json * sent :=
  (match endpoint url n vars with
   | NetworkError e => JDict [(lit "network_error", JStr e)]
   | Response _ (Some j) => j
   | Response text None => JDict [(lit "non_json_response", JStr text)]
   end, n ++ [vars]).

(** [isinstance(resp, dict) and 'data' in resp and resp['data'] and
    resp['data'].get('createBook', {}).get('ok')], as a condition. *)
Definition created (resp : json) : result bool :=
  match resp with
  | JDict items =>
      match get items (lit "data") with
      | None => Ok false
      | Some data =>
          if negb (truthy data) then Ok false
          else
            match data with
            | JDict fields =>
                let payload :=
                  match get fields (lit "createBook") with
                  | Some v => v
                  | None => JDict []
                  end in
                match payload with
                | JDict p =>
                    match get p (lit "ok") with
                    | Some v => Ok (truthy v)
                    | None => Ok false
                    end
                | _ => Raise AttributeError
                end
            | _ => Raise AttributeError
            end
      end
  | _ => Ok false
  end.

Definition add_single (a : args) (n : sent) : result Z * sent :=
  let vars := mkvariables (a_title a) (a_author a) (a_published_date a)
                          (a_isbn a) (a_pages a) (a_cover_image a)
                          (a_language a) in
  let '(resp, n) := post_book (url a) vars n in
  match created resp with
  | Raise e => (Raise e, n)
  | Ok true => (Ok 0, n)
  | Ok false => (Ok 1, n)
  end.

(** [int(row.get('pages') or 0)] *)
Definition row_pages (row : csv_row) : result Z :=
  match row_get row "pages" with
  | Some (c :: s) =>
      match int_of_str (c :: s) with
      | Some z => Ok z
      | None => Raise ValueError
      end
  | _ => Ok 0
  end.

Definition row_variables (row : csv_row) : result variables :=
  match row_pages row with
  | Raise e => Raise e
  | Ok pages =>
      Ok (mkvariables
            (or_else (row_get row "title") (row_get row "Title"))
            (or_else (row_get row "author") (row_get row "Author"))
            (or_else (or_else (row_get row "published_date")
                              (row_get row "publishedDate"))
                     (row_get row "PublishedDate"))
            (or_else (or_else (row_get row "isbn_number")
                              (row_get row "isbn"))
                     (row_get row "ISBN"))
            (Some pages)
            (or_else (or_else (row_get row "cover_image")
                              (row_get row "coverImage"))
                     None)
            (or_else (or_else (row_get row "language")
                              (row_get row "Language"))
                     (Some (lit "Unknown"))))
  end.

(** The body of the [for row in reader] loop: was the row created? *)
Definition import_row (url : str) (row : csv_row) (n : sent)
  : result bool * sent :=
  match row_variables row with
  | Raise e => (Raise e, n)
  | Ok vars =>
      let '(resp, n) := post_book url vars n in (created resp, n)
  end.

(** The loop. *)
Fixpoint import_rows (url : str) (rows : list csv_row)
         (failures total : Z) (n : sent) : result (Z * Z) * sent :=
  match rows with
  | [] => (Ok (failures, total), n)
  | row :: rest =>
      let total := total + 1 in
      match import_row url row n with
      | (Raise e, n) => (Raise e, n)
      | (Ok true, n) => import_rows url rest failures total n
      | (Ok false, n) => import_rows url rest (failures + 1) total n
      end
  end.

Definition import_csv (a : args) (n : sent) : result Z * sent :=
  match csv a with
  | None => (Raise TypeError, n)
  | Some path =>
      match read_csv path with
      | None => (Raise OSError, n)
      | Some rows =>
          match import_rows (url a) rows 0 0 n with
          | (Raise e, n) => (Raise e, n)
          | (Ok (failures, _), n) =>
              (Ok (if failures =? 0 then 0 else 2), n)
          end
      end
  end.

Definition is_None {A} (x : option A) : bool :=
  match x with
  | None => true
  | Some _ => false
  end.

(** The names in [required] whose attribute is [None]. *)
Definition missing (a : args) : list string :=
  map fst
    (filter snd
       [ ("title"%string, is_None (a_title a));
         ("author"%string, is_None (a_author a));
         ("published_date"%string, is_None (a_published_date a));
         ("isbn"%string, is_None (a_isbn a));
         ("pages"%string, is_None (a_pages a));
         ("language"%string, is_None (a_language a)) ]).

Definition to_outcome (r : result Z) : outcome :=
  match r with
  | Ok status => Exit status
  | Raise e => Uncaught e
  end.

(** [main], after [parse_args]. *)
Definition main (a : args) (n : sent) : outcome * sent :=
  match csv a with
  | Some (_ :: _) =>
      let '(r, n) := import_csv a n in (to_outcome r, n)
  | _ =>
      match missing a with
      | _ :: _ => (Exit 3, n)
      | [] => let '(r, n) := add_single a n in (to_outcome r, n)
      end
  end.
End Importer.

End AddBooks.

(** ** Concrete requests, tables and files used in the examples below *)

Module Samples.
Import Py Models Schema AddBooks.
Local Open Scope Z_scope.

Definition newline : char := 10%N.

(** "1234567890\n": eleven code points, the last one a line feed. *)
Definition isbn_with_newline : str := lit "1234567890" ++ [newline].

Definition dune (isbn_number published_date : str) : Arguments :=
  mkArguments (lit "Dune") (lit "Frank Herbert") published_date isbn_number
              412 None (lit "English").

Definition empty_db : db := mkdb [] [].

Definition book_1984 : Book :=
  mkBook 1 (lit "1984") (lit "Orwell") (Datetime.mkdate 1949 6 8)
         (lit "9780451524935") 328 None (lit "English").

Definition db_1984 : db := mkdb [book_1984] [].

(** The ISBN of [book_1984] again, with a date that does not parse. *)
Definition animal_farm_bad_date : Arguments :=
  mkArguments (lit "Animal Farm") (lit "Orwell") (lit "1945/08/17")
              (lit "9780451524935") 112 None (lit "English").

Definition animal_farm : Arguments :=
  mkArguments (lit "Animal Farm") (lit "Orwell") (lit "1945-08-17")
              (lit "9780451524935") 112 None (lit "English").

(** A title that is one lone surrogate, U+D800 (the JSON text "\ud800"). *)
Definition surrogate_title : Arguments :=
  mkArguments [0xD800%N] (lit "Frank Herbert") (lit "1965-08-01")
              (lit "9780441013593") 412 None (lit "English").

(** A row whose title is "Du", NUL, "ne", and one whose title is "a",
    NUL, " b". *)
Definition nul_dune : Book :=
  mkBook 1 (lit "Du" ++ [0%N] ++ lit "ne") (lit "Herbert")
         (Datetime.mkdate 1965 8 1) (lit "9780441013593") 412 None
         (lit "English").

Definition nul_space : Book :=
  mkBook 1 (lit "a" ++ [0%N] ++ lit " b") (lit "Herbert")
         (Datetime.mkdate 1965 8 1) (lit "9780441013593") 412 None
         (lit "English").

Definition no_args : args :=
  mkargs (lit "http://127.0.0.1:8000/graphql/")
         None None None None None None None None.

Definition csv_args : args :=
  mkargs (lit "http://127.0.0.1:8000/graphql/")
         None None None None None None None (Some (lit "books.csv")).

Definition single_args : args :=
  mkargs (lit "http://127.0.0.1:8000/graphql/")
         (Some (lit "Dune")) (Some (lit "Frank Herbert"))
         (Some (lit "1965-08-01")) (Some (lit "9780441013593")) (Some 412)
         None (Some (lit "English")) None.

Definition dune_row (pages : string) : csv_row :=
  [ (lit "title", Some (lit "Dune"));
    (lit "author", Some (lit "Frank Herbert"));
    (lit "published_date", Some (lit "1965-08-01"));
    (lit "isbn_number", Some (lit "9780441013593"));
    (lit "pages", Some (lit pages));
    (lit "language", Some (lit "English"));
    (lit "cover_image", Some []) ].

(** books.csv holds the one row. *)
Definition one_file (row : csv_row) (path : str) : option (list csv_row) :=
  if str_eqb path (lit "books.csv") then Some [row] else None.

(** {"errors": [..], "data": {"createBook": null}}: what a GraphQL server
    answers when the resolver of createBook raised. *)
Definition resolver_error : json :=
  JDict [ (lit "errors", JList [JDict [(lit "message", JStr (lit "error"))]]);
          (lit "data", JDict [(lit "createBook", JNull)]) ].

(** {"data": {"createBook": {"ok": b, "errors": [], "book": null}}} *)
Definition payload (b : bool) : json :=
  JDict [ (lit "data",
           JDict [ (lit "createBook",
                    JDict [ (lit "ok", JBool b); (lit "errors", JList []);
                            (lit "book", JNull) ]) ]) ].

Definition always (j : json) (url : str) (before : list variables)
           (v : variables) : reply :=
  Response [] (Some j).

End Samples.

(** ** [library/models.py]: members, borrow records and [__str__] *)

Module Display.
Import Py Models.

Record LibraryUser := mkLibraryUser {
  first_name : str;
  last_name : str;
  email : str;                         (* unique=True *)
  membership_date : Datetime.date      (* auto_now_add=True *)
}.

(** The two foreign keys are the rows they point to. *)
Record BorrowRecord := mkBorrowRecord {
  user : LibraryUser;
  borrowed : Book;                     (* the field [book] *)
  borrow_date : Datetime.date;
  return_date : option Datetime.date
}.

(** [Book.__str__] *)
Definition Book_str (b : Book) : str := title b.

(** [LibraryUser.__str__]: f"{self.first_name} {self.last_name}" *)
Definition LibraryUser_str (u : LibraryUser) : str :=
  first_name u ++ lit " " ++ last_name u.

(** [BorrowRecord.__str__]: f"{self.user} borrowed {self.book}" *)
Definition BorrowRecord_str (r : BorrowRecord) : str :=
  LibraryUser_str (user r) ++ lit " borrowed " ++ Book_str (borrowed r).

End Display.

(** ** Vocabulary of the statements *)

Import Py Re Models Schema.

(** The characters that [sanitize_re] leaves in place. *)
Definition kept (c : char) : bool :=
  is_ascii_lower c || is_ascii_upper c || is_ascii_digit c || is_space c.

(** Where [$] matches: at the end, or before a line feed that ends the
    string. *)
Definition at_end (t : str) : bool :=
  match t with
  | [] => true
  | [c] => (c =? 10)%N
  | _ => false
  end.

(** What [isbn_re] accepts, read off the pattern. *)
Definition isbn_ok (s : str) : bool :=
  (10 <=? List.length s)%nat && forallb is_decimal (firstn 10 s)
  && (((3 <=? List.length (skipn 10 s))%nat
       && forallb is_decimal (firstn 3 (skipn 10 s))
       && at_end (skipn 3 (skipn 10 s)))
      || at_end (skipn 10 s)).

(** "YYYY-MM-DD" from its eight digits. *)
Definition strict (y1 y2 y3 y4 m1 m2 d1 d2 : N) : str :=
  [0x30 + y1; 0x30 + y2; 0x30 + y3; 0x30 + y4; Datetime.dash;
   0x30 + m1; 0x30 + m2; Datetime.dash; 0x30 + d1; 0x30 + d2]%N.

(** No two rows of the table share an isbn_number. *)
Definition unique_isbn (t : list Book) : Prop := NoDup (map isbn_number t).

(** The number of rows that carry an isbn_number. *)
Definition count_isbn (isbn : str) (t : list Book) : nat :=
  List.length (filter (has_isbn isbn) t).

(** The statements a call added to the log. *)
Definition issued (before after : db) (new : list statement) : Prop :=
  log after = log before ++ new.

(** The row that [mutate] inserts. *)
Definition new_book (a : Arguments) (pub_date : Datetime.date) (d : db)
  : Book :=
  mkBook (next_pk (table d)) (arg_title a) (arg_author a) pub_date
         (arg_isbn_number a) (arg_pages a) (arg_cover_image a)
         (arg_language a).

(** [q] occurs in [field]. *)
Definition substring (q field : str) : Prop :=
  exists pre post : str, field = pre ++ q ++ post.

(** [q] occurs in [field] when the case of ASCII letters is ignored. *)
Definition isubstring (q field : str) : Prop :=
  substring (map upper q) (map upper field).

(** A row matches when the query occurs in one of the four columns. *)
Definition matches (occurs : str -> str -> Prop) (q : str) (b : Book) : Prop :=
  occurs q (title b) \/ occurs q (author b)
  \/ occurs q (isbn_number b) \/ occurs q (language b).

Section ImporterVocabulary.
Import AddBooks.

Variable endpoint : str -> list variables -> variables -> reply.

(** What each row of the file comes to, up to the first exception. *)
Fixpoint row_results (url : str) (rows : list csv_row) (n : sent)
  : list (result bool) :=
  match rows with
  | [] => []
  | row :: rest =>
      match import_row endpoint url row n with
      | (Ok b, n') => Ok b :: row_results url rest n'
      | (Raise e, _) => [Raise e]
      end
  end.


Definition raised (r : result bool) : bool :=
  match r with
  | Raise _ => true
  | Ok _ => false
  end.

Definition csv_mode (a : args) : bool :=
  match csv a with
  | Some (_ :: _) => true
  | _ => false
  end.

End ImporterVocabulary.

(** A row as [mutate] writes them: an isbn_number that the ISBN check
    accepts and a published_date that is a calendar date. *)
Definition row_ok (b : Book) : Prop :=
  isbn_ok (isbn_number b) = true
  /\ Datetime.check_date_args (published_date b) = true.

(** A cell or query that Python takes for false: [None] or ['']. *)
Definition falsy (x : option str) : bool :=
  match x with
  | Some (_ :: _) => false
  | _ => true
  end.

(** The number that a string of ASCII digits writes. *)
Definition decimal_value (ds : str) : Z :=
  fold_left (fun acc c => (acc * 10 + Z.of_N (c - 0x30))%Z) ds 0%Z.

(** The ASCII characters that can stand in an integer literal: digits,
    the underscore, the two signs and blanks. *)
Definition number_char (c : char) : bool :=
  is_ascii_digit c || (c =? AddBooks.underscore)%N || AddBooks.Py_ISSPACE c
  || (c =? 0x2B)%N || (c =? 0x2D)%N.

(** A reply that is no JSON document: the request raised, or the body did
    not parse. *)
Definition transport_failure (r : AddBooks.reply) : bool :=
  match r with
  | AddBooks.NetworkError _ => true
  | AddBooks.Response _ None => true
  | AddBooks.Response _ (Some _) => false
  end.

(** The text values of a request can all be bound to the INSERT. *)
Definition bindable (a : Arguments) : bool :=
  encodable (arg_title a) && encodable (arg_author a)
  && encodable (arg_isbn_number a) && encodable_opt (arg_cover_image a)
  && encodable (arg_language a).

(** [q] occurs in what LIKE reads of a column: the text before its first
    NUL; with and without the case of ASCII letters. *)
Definition occurs_before_nul (q field : str) : Prop :=
  substring q (c_string field).

Definition ilike (q field : str) : Prop :=
  isubstring q (c_string field).

(** The length of the UTF-8 encoding, in bytes. *)
Definition utf8_size (s : str) : N :=
  match Datetime.utf8 s with
  | Some bytes => N.of_nat (List.length bytes)
  | None => 0
  end.

(** The search for a sanitized [q] over the table [t] raises: there is a
    row to compare and [q] is longer than 49998 bytes in UTF-8, so that
    the pattern '%q%' is longer than 50000. *)
Definition like_raises (q : str) (t : list Book) : bool :=
  has_rows t && (49998 <? utf8_size q)%N.

(** * Properties *)

(** ** Regular expressions *)

Section ReFacts.
Variable A : Type.

Lemma run_digit (pos : nat) (s : str) (k : cont A) :
  run digit pos s k =
  match s with
  | c :: t => if is_decimal c then k (S pos) t else None
  | [] => None
  end.
Proof.
  destruct s as [|c t]; simpl; [reflexivity|].
  unfold set_match; simpl. rewrite orb_false_r. reflexivity.
Qed.

(** [\d{n}] consumes [n] decimal digits or fails. *)
Lemma run_rep_digit (n : nat) : forall (pos : nat) (s : str) (k : cont A),
  run (Rep n digit) pos s k =
  if (n <=? List.length s)%nat && forallb is_decimal (firstn n s)
  then k (pos + n)%nat (skipn n s) else None.
Proof.
  induction n as [|n IH]; intros pos s k.
  - simpl. rewrite Nat.add_0_r. reflexivity.
  - change (run (Rep (S n) digit) pos s k)
      with (run digit pos s (fun p t => run (Rep n digit) p t k)).
    rewrite run_digit. destruct s as [|c t]; [reflexivity|].
    cbv beta. rewrite IH.
    change (firstn (S n) (c :: t)) with (c :: firstn n t).
    change (skipn (S n) (c :: t)) with (skipn n t).
    change (forallb is_decimal (c :: firstn n t))
      with (is_decimal c && forallb is_decimal (firstn n t)).
    change (S n <=? List.length (c :: t))%nat with (n <=? List.length t)%nat.
    rewrite Nat.add_succ_r.
    destruct (is_decimal c); [reflexivity|].
    rewrite andb_false_r. reflexivity.
Qed.
End ReFacts.

Lemma sanitize_set_match (c : char) :
  set_match true [Range 0x61 0x7A; Range 0x41 0x5A; Range 0x30 0x39; Space]%N c
  = negb (kept c).
Proof.
  unfold set_match, kept, is_ascii_lower, is_ascii_upper, is_ascii_digit.
  simpl. rewrite orb_false_r, !orb_assoc. reflexivity.
Qed.

(** Replacing the matches of a one-character set by nothing is a filter. *)
Lemma sub_loop_set (negated : bool) (items : list item) :
  forall (s : str) (fuel pos : nat),
    (List.length s < fuel)%nat ->
    sub_loop fuel (Set_ negated items) [] pos s false
    = filter (fun c => negb (set_match negated items c)) s.
Proof.
  induction s as [|c s IH]; intros fuel pos Hfuel;
    destruct fuel as [|fuel]; simpl in Hfuel; try lia.
  - reflexivity.
  - simpl. destruct (set_match negated items c); simpl.
    + change (match pos with
              | O => false
              | S m' => Nat.eqb pos m'
              end) with (Nat.eqb (S pos) pos).
      replace (Nat.eqb (S pos) pos) with false
        by (symmetry; apply Nat.eqb_neq; lia).
      apply IH. lia.
    + f_equal. apply IH. lia.
  Qed.

Lemma sanitize_is_filter (q : str) :
  re_sub sanitize_re [] q = filter kept q.
Proof.
  unfold re_sub, sanitize_re. rewrite sub_loop_set by lia.
  apply filter_ext. intro c. rewrite sanitize_set_match.
  apply negb_involutive.
Qed.

Lemma filter_idem {T} (f : T -> bool) (l : list T) :
  filter f (filter f l) = filter f l.
Proof.
  induction l as [|x l IH]; simpl; [reflexivity|].
  destruct (f x) eqn:E; simpl; [rewrite E, IH|]; auto.
Qed.

(** C10: sanitizing a sanitized query changes nothing,
    [sanitize (sanitize q) = sanitize q] for every string [q], where
    [sanitize] is the [re.sub] call of [resolve_search_books]. *)
Theorem sanitize_idempotent (q : str) :
  re_sub sanitize_re [] (re_sub sanitize_re [] q) = re_sub sanitize_re [] q.
Proof.
  rewrite !sanitize_is_filter. apply filter_idem.
Qed.

(** ** The ISBN check of [mutate] *)

Lemma run_eol {A} (pos : nat) (t : str) (k : cont A) :
  run Eol pos t k = if at_end t then k pos t else None.
Proof.
  destruct t as [|c [|c' t]]; reflexivity.
Qed.

Lemma run_cat {A} (r1 r2 : regex) (pos : nat) (s : str) (k : cont A) :
  run (Cat r1 r2) pos s k = run r1 pos s (fun p t => run r2 p t k).
Proof. reflexivity. Qed.

Lemma run_opt {A} (r : regex) (pos : nat) (s : str) (k : cont A) :
  run (Opt r) pos s k =
  match run r pos s k with
  | Some a => Some a
  | None => k pos s
  end.
Proof. reflexivity. Qed.

Lemma run_bol {A} (s : str) (k : cont A) : run Bol 0 s k = k 0%nat s.
Proof. reflexivity. Qed.

Lemma re_match_isbn (s : str) :
  re_match isbn_re s <> None <-> isbn_ok s = true.
Proof.
  unfold re_match, isbn_re, isbn_ok.
  rewrite run_cat, run_bol, run_cat, run_rep_digit.
  remember ((10 <=? List.length s)%nat && forallb is_decimal (firstn 10 s))
    as c10 eqn:E10.
  destruct c10; [|split; [congruence|discriminate]].
  rewrite andb_true_l. cbv beta.
  rewrite run_cat, run_opt, run_rep_digit, !run_eol.
  remember (skipn 10 s) as t eqn:Et.
  remember ((3 <=? List.length t)%nat && forallb is_decimal (firstn 3 t))
    as c3 eqn:E3.
  remember (at_end (skipn 3 t)) as e3 eqn:Ee3.
  remember (at_end t) as e0 eqn:Ee0.
  destruct c3, e3, e0; cbn; split; congruence.
Qed.

Lemma line_feed_not_decimal : is_decimal 10%N = false.
Proof. reflexivity. Qed.

Lemma at_end_cases (t : str) :
  at_end t = true <-> t = [] \/ t = [10%N].
Proof.
  destruct t as [|c [|c' t]]; simpl.
  - tauto.
  - rewrite N.eqb_eq. split.
    + intros ->. now right.
    + intros [H|H]; [discriminate|congruence].
  - split; [discriminate|]. intros [H|H]; discriminate.
Qed.

Lemma cut_app {T} (l rest : list T) :
  firstn (List.length l) (l ++ rest) = l
  /\ skipn (List.length l) (l ++ rest) = rest.
Proof.
  split.
  - rewrite firstn_app, Nat.sub_diag, firstn_all. apply app_nil_r.
  - rewrite skipn_app, Nat.sub_diag, skipn_all. reflexivity.
Qed.

(** The strings the ISBN check lets through: ten or thirteen decimal
    digits (of any script), optionally followed by one line feed. *)
Lemma isbn_ok_shape (s : str) :
  isbn_ok s = true <->
  exists ds : str,
    forallb is_decimal ds = true
    /\ (List.length ds = 10%nat \/ List.length ds = 13%nat)
    /\ (s = ds \/ s = ds ++ [10%N]).
Proof.
  unfold isbn_ok. split.
  - intro H. apply andb_prop in H as [H10 Htail].
    apply andb_prop in H10 as [Hlen Hdig]. apply Nat.leb_le in Hlen.
    pose proof (firstn_skipn 10 s) as Hs.
    assert (L10 : List.length (firstn 10 s) = 10%nat)
      by (rewrite length_firstn; lia).
    apply orb_prop in Htail as [H13|H0].
    + apply andb_prop in H13 as [H13 Hend].
      apply andb_prop in H13 as [Hlen3 Hdig3]. apply Nat.leb_le in Hlen3.
      pose proof (firstn_skipn 3 (skipn 10 s)) as Ht.
      exists (firstn 10 s ++ firstn 3 (skipn 10 s)). split; [|split].
      * rewrite forallb_app, Hdig, Hdig3. reflexivity.
      * right. rewrite length_app, L10, length_firstn. lia.
      * apply at_end_cases in Hend as [E|E].
        -- left. rewrite <- Hs at 1. rewrite <- Ht at 1. rewrite E.
           rewrite app_nil_r. reflexivity.
        -- right. rewrite <- Hs at 1. rewrite <- Ht at 1. rewrite E.
           rewrite app_assoc. reflexivity.
    + exists (firstn 10 s). split; [exact Hdig|]. split; [now left|].
      apply at_end_cases in H0 as [E|E]; rewrite E in Hs.
      * left. rewrite app_nil_r in Hs. congruence.
      * right. congruence.
  - intros (ds & Hdig & Hlen & Hs).
    assert (Hs' : exists rest, s = ds ++ rest /\ at_end rest = true).
    { destruct Hs as [-> | ->].
      - exists []. rewrite app_nil_r. auto.
      - exists [10%N]. auto. }
    destruct Hs' as (rest & -> & Hrest).
    rewrite length_app.
    destruct Hlen as [L|L].
    + destruct (cut_app ds rest) as [F S]. rewrite L in F, S.
      rewrite F, S, Hdig, Hrest, L.
      rewrite orb_true_r. reflexivity.
    + (* thirteen digits: ten and three *)
      pose proof (firstn_skipn 10 ds) as Hds.
      assert (L10 : List.length (firstn 10 ds) = 10%nat)
        by (rewrite length_firstn; lia).
      assert (L3 : List.length (skipn 10 ds) = 3%nat)
        by (rewrite length_skipn; lia).
      remember (firstn 10 ds) as d10 eqn:E10.
      remember (skipn 10 ds) as d3 eqn:E3.
      subst ds. rewrite forallb_app in Hdig.
      apply andb_prop in Hdig as [D10 D3].
      rewrite <- app_assoc.
      destruct (cut_app d10 (d3 ++ rest)) as [F S]. rewrite L10 in F, S.
      destruct (cut_app d3 rest) as [F3 S3]. rewrite L3 in F3, S3.
      rewrite F, S, F3, S3, D10, D3, Hrest, !length_app, L10, L3.
      reflexivity.
Qed.

Lemma isbn_error_is_not_date_error : isbn_error <> date_error.
Proof. vm_compute. discriminate. Qed.

(** X1: validation reports "ISBN must be 10 or 13 digits." except for the
    strings made of ten or thirteen decimal digits (of any script),
    optionally followed by one line feed. *)
Theorem isbn_error_reported_iff (published_date s : str) :
  In isbn_error (fst (validate published_date s)) <->
  ~ exists ds : str,
      forallb is_decimal ds = true
      /\ (List.length ds = 10%nat \/ List.length ds = 13%nat)
      /\ (s = ds \/ s = ds ++ [10%N]).
Proof.
  rewrite <- isbn_ok_shape, <- re_match_isbn.
  unfold validate.
  destruct (re_match isbn_re s) as [m|],
           (Datetime.fromisoformat published_date); simpl.
  - split; [tauto|]. intro H. apply H. discriminate.
  - split.
    + intros [H|[]]. elim isbn_error_is_not_date_error. congruence.
    + intro H. elim H. discriminate.
  - split; [|tauto]. intros _ H. apply H. reflexivity.
  - split; [|tauto]. intros _ H. apply H. reflexivity.
Qed.

(** ** The date check of [mutate] *)

Section DateFacts.
Import Datetime.

Lemma utf8_cons_ascii (c : char) (t : str) :
  (c < 0x80)%N ->
  utf8 (c :: t) = match utf8 t with Some bs => Some (c :: bs) | None => None end.
Proof.
  intro H. cbn [utf8]. unfold utf8_char.
  destruct (N.ltb_spec c 0x80); [|lia]. reflexivity.
Qed.

Lemma parse_digits_step (a : N) (p : list N) (v : Z) (k : nat) :
  (a <= 9)%N ->
  parse_digits ((0x30 + a)%N :: p) v (S k)
  = parse_digits p (v * 10 + Z.of_N a) k.
Proof.
  intro H. cbn [parse_digits peek hd tl].
  destruct (N.leb_spec 0x30 (0x30 + a)); [|lia].
  destruct (N.leb_spec (0x30 + a) 0x39); [|lia].
  cbn [andb]. replace (0x30 + a - 0x30)%N with a by lia. reflexivity.
Qed.

Lemma parse_digits_2 (a b : N) (p : list N) :
  (a <= 9)%N -> (b <= 9)%N ->
  parse_digits ((0x30 + a)%N :: (0x30 + b)%N :: p) 0 2
  = Some (p, Z.of_N (10 * a + b)).
Proof.
  intros. rewrite !parse_digits_step by assumption.
  cbn [parse_digits]. do 2 f_equal. lia.
Qed.

Lemma parse_digits_4 (a b c d : N) (p : list N) :
  (a <= 9)%N -> (b <= 9)%N -> (c <= 9)%N -> (d <= 9)%N ->
  parse_digits ((0x30 + a)%N :: (0x30 + b)%N :: (0x30 + c)%N
                :: (0x30 + d)%N :: p) 0 4
  = Some (p, Z.of_N (1000 * a + 100 * b + 10 * c + d)).
Proof.
  intros. rewrite !parse_digits_step by assumption.
  cbn [parse_digits]. do 2 f_equal. lia.
Qed.

Lemma fromisoformat_strict (y1 y2 y3 y4 m1 m2 d1 d2 : N) :
  (y1 <= 9 -> y2 <= 9 -> y3 <= 9 -> y4 <= 9 -> m1 <= 9 -> m2 <= 9 ->
   d1 <= 9 -> d2 <= 9 ->
   fromisoformat (strict y1 y2 y3 y4 m1 m2 d1 d2)
   = let dt := mkdate (Z.of_N (1000 * y1 + 100 * y2 + 10 * y3 + y4))
                      (Z.of_N (10 * m1 + m2)) (Z.of_N (10 * d1 + d2)) in
     if check_date_args dt then Some dt else None)%N.
Proof.
  intros. unfold fromisoformat, strict.
  rewrite !utf8_cons_ascii by (unfold dash; lia).
  cbn [utf8 List.length Nat.eqb orb].
  unfold parse_isoformat_date.
  rewrite parse_digits_4 by assumption.
  cbn [peek hd]. rewrite N.eqb_refl. cbv zeta. cbn [peek tl hd].
  replace ((0x30 + m1 =? letter_W)%N) with false
    by (symmetry; apply N.eqb_neq; unfold letter_W; lia).
  rewrite parse_digits_2 by assumption.
  cbn [hd]. rewrite N.eqb_refl. cbn [negb andb tl].
  rewrite parse_digits_2 by assumption.
  reflexivity.
Qed.

(** X2: every in-range calendar date written as YYYY-MM-DD (ASCII digits)
    parses, to that date, so validation reports no date error for it. *)
Lemma strict_date_accepted (y1 y2 y3 y4 m1 m2 d1 d2 : N) :
  (y1 <= 9 -> y2 <= 9 -> y3 <= 9 -> y4 <= 9 -> m1 <= 9 -> m2 <= 9 ->
   d1 <= 9 -> d2 <= 9 ->
   check_date_args
     (mkdate (Z.of_N (1000 * y1 + 100 * y2 + 10 * y3 + y4))
             (Z.of_N (10 * m1 + m2)) (Z.of_N (10 * d1 + d2))) = true ->
   fromisoformat (strict y1 y2 y3 y4 m1 m2 d1 d2)
   = Some (mkdate (Z.of_N (1000 * y1 + 100 * y2 + 10 * y3 + y4))
                  (Z.of_N (10 * m1 + m2)) (Z.of_N (10 * d1 + d2))))%N.
Proof.
  intros ? ? ? ? ? ? ? ? Hcheck. rewrite fromisoformat_strict by assumption.
  cbv zeta. rewrite Hcheck. reflexivity.
Qed.

Lemma strict_date_accepted_witness :
  fromisoformat (lit "1965-08-01") = Some (mkdate 1965 8 1).
Proof.
  apply (@strict_date_accepted 1 9 6 5 0 8 0 1)%N;
    try (vm_compute; discriminate); reflexivity.
Defined.

(** The malformed and out-of-range dates named in C2 are refused. *)
Lemma claimed_dates_rejected :
  fromisoformat (lit "2021-13-40") = None
  /\ fromisoformat (lit "01/01/2021") = None
  /\ fromisoformat [] = None
  /\ fromisoformat (lit "2021-02-29") = None.
Proof.
  repeat split; vm_compute; reflexivity.
Qed.

End DateFacts.

(** ** [CreateBook.mutate] *)

Lemma str_eqb_eq (a b : str) : str_eqb a b = true <-> a = b.
Proof.
  unfold str_eqb. destruct (list_eq_dec N.eq_dec a b); split;
    congruence || discriminate.
Qed.

Lemma existsb_has_isbn (isbn : str) (t : list Book) :
  existsb (has_isbn isbn) t = true <-> In isbn (map isbn_number t).
Proof.
  rewrite existsb_exists, in_map_iff. unfold has_isbn.
  split; intros (b & H1 & H2).
  - exists b. split; [apply str_eqb_eq|]; assumption.
  - exists b. split; [assumption|apply str_eqb_eq; assumption].
Qed.

Lemma isbn_free (isbn : str) (t : list Book) :
  existsb (has_isbn isbn) t = false <->
  forall b, In b t -> isbn_number b <> isbn.
Proof.
  split.
  - intros H b Hb E.
    assert (X : existsb (has_isbn isbn) t = true)
      by (apply existsb_has_isbn; subst isbn; apply in_map; exact Hb).
    congruence.
  - intro H. destruct (existsb (has_isbn isbn) t) eqn:E; [|reflexivity].
    apply existsb_exists in E as (b & Hb & Hi).
    apply str_eqb_eq in Hi. elim (H b Hb Hi).
Qed.

Lemma count_isbn_unique (isbn : str) (t : list Book) :
  unique_isbn t -> existsb (has_isbn isbn) t = true -> count_isbn isbn t = 1%nat.
Proof.
  unfold unique_isbn, count_isbn.
  induction t as [|b t IH]; simpl; intros Hu Hex; [discriminate|].
  inversion Hu as [|x l Hnin Hu']; subst.
  destruct (has_isbn isbn b) eqn:E; simpl.
  - f_equal. unfold has_isbn in E. apply str_eqb_eq in E. subst isbn.
    destruct (existsb (has_isbn (isbn_number b)) t) eqn:E'.
    + apply existsb_has_isbn in E'. contradiction.
    + clear -E'. induction t as [|c t IH]; [reflexivity|].
      simpl in *. apply orb_false_elim in E' as [E1 E2].
      rewrite E1. auto.
  - simpl in Hex. apply IH; assumption.
Qed.

Lemma validate_errors (published_date isbn_number : str) :
  fst (validate published_date isbn_number) =
  match re_match isbn_re isbn_number with
  | Some _ => []
  | None => [isbn_error]
  end
  ++ match Datetime.fromisoformat published_date with
     | Some _ => []
     | None => [date_error]
     end.
Proof.
  unfold validate.
  destruct (re_match isbn_re isbn_number),
           (Datetime.fromisoformat published_date); reflexivity.
Qed.

Lemma validate_date (published_date isbn_number : str) :
  snd (validate published_date isbn_number)
  = Datetime.fromisoformat published_date.
Proof.
  unfold validate.
  destruct (re_match isbn_re isbn_number),
           (Datetime.fromisoformat published_date); reflexivity.
Qed.

Lemma validate_passes (published_date isbn_number : str) :
  fst (validate published_date isbn_number) = [] <->
  re_match isbn_re isbn_number <> None
  /\ Datetime.fromisoformat published_date <> None.
Proof.
  rewrite validate_errors.
  destruct (re_match isbn_re isbn_number),
           (Datetime.fromisoformat published_date); simpl;
    split; try discriminate; try (intros [? ?]; congruence);
    try (intros _; split; discriminate).
Qed.

(** The three ways out of [mutate]. *)
Lemma mutate_invalid (a : Arguments) (d : db) :
  fst (validate (arg_published_date a) (arg_isbn_number a)) <> [] ->
  mutate a d =
  (Ok (mkCreateBook None false
         (fst (validate (arg_published_date a) (arg_isbn_number a)))), d).
Proof.
  unfold mutate.
  destruct (validate (arg_published_date a) (arg_isbn_number a))
    as [[|e errs] pd]; simpl; [congruence|reflexivity].
Qed.

(** What [fromisoformat] returns is a calendar date. *)
Lemma fromisoformat_valid (s : str) (d : Datetime.date) :
  Datetime.fromisoformat s = Some d -> Datetime.check_date_args d = true.
Proof.
  unfold Datetime.fromisoformat.
  destruct (Datetime.utf8 s) as [bs|]; [|discriminate].
  destruct (Nat.eqb (List.length bs) 7 || Nat.eqb (List.length bs) 8
            || Nat.eqb (List.length bs) 10); [|discriminate].
  destruct (Datetime.parse_isoformat_date bs) as [x|]; [|discriminate].
  destruct (Datetime.check_date_args x) eqn:E; [|discriminate].
  intro H. inversion H; subst. exact E.
Qed.

(** *** Text that can be bound to a statement *)

Lemma utf8_char_none (c : char) :
  Datetime.utf8_char c = None -> (0xD800 <= c <= 0xDFFF)%N.
Proof.
  unfold Datetime.utf8_char.
  destruct (c <? 0x80)%N; [discriminate|].
  destruct (c <? 0x800)%N; [discriminate|].
  destruct ((0xD800 <=? c)%N && (c <=? 0xDFFF)%N) eqn:E.
  - intros _. apply andb_prop in E as [E1 E2].
    apply N.leb_le in E1, E2. lia.
  - destruct (c <? 0x10000)%N; discriminate.
Qed.

Lemma decimal_not_surrogate (c : char) :
  is_decimal c = true -> (c < 0xD800 \/ 0xDFFF < c)%N.
Proof.
  unfold is_decimal, decimal_blocks. cbn [existsb]. unfold in_block.
  cbn [fst snd].
  rewrite !orb_true_iff, !andb_true_iff, !N.leb_le, !N.ltb_lt. lia.
Qed.

Lemma encodable_cons (c : char) (s : str) :
  encodable (c :: s)
  = match Datetime.utf8_char c with
    | Some _ => encodable s
    | None => false
    end.
Proof.
  unfold encodable. cbn [Datetime.utf8].
  destruct (Datetime.utf8_char c), (Datetime.utf8 s); reflexivity.
Qed.

Lemma encodable_app (s t : str) :
  encodable (s ++ t) = encodable s && encodable t.
Proof.
  induction s as [|c s IH]; [reflexivity|].
  cbn [app]. rewrite !encodable_cons.
  destruct (Datetime.utf8_char c); [exact IH|reflexivity].
Qed.

Lemma encodable_forall (P : char -> bool) (s : str) :
  (forall c, P c = true -> Datetime.utf8_char c <> None) ->
  forallb P s = true -> encodable s = true.
Proof.
  intros HP. induction s as [|c s IH]; [reflexivity|].
  cbn [forallb]. rewrite andb_true_iff, encodable_cons. intros [Hc Hs].
  destruct (Datetime.utf8_char c) eqn:E; [auto|].
  elim (HP c Hc E).
Qed.

Lemma decimal_encodable (ds : str) :
  forallb is_decimal ds = true -> encodable ds = true.
Proof.
  apply encodable_forall. intros c Hc E.
  apply utf8_char_none in E. apply decimal_not_surrogate in Hc. lia.
Qed.

(** An isbn_number that passes the ISBN check can be bound. *)
Lemma isbn_ok_encodable (s : str) : isbn_ok s = true -> encodable s = true.
Proof.
  intro H. apply isbn_ok_shape in H as (ds & Hd & _ & [-> | ->]).
  - apply decimal_encodable. exact Hd.
  - rewrite encodable_app, (decimal_encodable ds Hd). reflexivity.
Qed.

Lemma valid_isbn_encodable (published_date isbn_number : str) :
  fst (validate published_date isbn_number) = [] ->
  encodable isbn_number = true.
Proof.
  intro Hv. apply isbn_ok_encodable, re_match_isbn.
  apply validate_passes in Hv. tauto.
Qed.

Lemma mutate_duplicate (a : Arguments) (d : db) :
  fst (validate (arg_published_date a) (arg_isbn_number a)) = [] ->
  existsb (has_isbn (arg_isbn_number a)) (table d) = true ->
  mutate a d =
  (Ok (mkCreateBook None false [duplicate_error]),
   mkdb (table d) (log d ++ [SelectExists (arg_isbn_number a)])).
Proof.
  intros Hv Hex. pose proof (valid_isbn_encodable _ _ Hv) as He.
  unfold mutate.
  destruct (validate (arg_published_date a) (arg_isbn_number a))
    as [[|e errs] pd]; simpl in *; [|discriminate].
  unfold bind, exists_isbn. rewrite He, Hex. reflexivity.
Qed.

Lemma mutate_created (a : Arguments) (d : db) (pub_date : Datetime.date) :
  fst (validate (arg_published_date a) (arg_isbn_number a)) = [] ->
  Datetime.fromisoformat (arg_published_date a) = Some pub_date ->
  existsb (has_isbn (arg_isbn_number a)) (table d) = false ->
  bindable a = true ->
  mutate a d =
  (Ok (mkCreateBook (Some (new_book a pub_date d)) true []),
   mkdb (table d ++ [new_book a pub_date d])
        (log d ++ [SelectExists (arg_isbn_number a);
                   Insert (arg_isbn_number a)])).
Proof.
  intros Hv Hd Hex Hb. pose proof (valid_isbn_encodable _ _ Hv) as He.
  pose proof (validate_date (arg_published_date a) (arg_isbn_number a)) as Hp.
  unfold mutate.
  destruct (validate (arg_published_date a) (arg_isbn_number a))
    as [errs pd]; simpl in Hv, Hp. subst errs. rewrite Hd in Hp. subst pd.
  unfold bind, exists_isbn, create, ret. unfold bindable in Hb.
  rewrite Hb, He, Hex. cbn [table log negb]. rewrite Hex.
  rewrite <- app_assoc. reflexivity.
Qed.

(** The INSERT cannot be run: nothing is written. *)
Lemma mutate_unbindable (a : Arguments) (d : db) :
  fst (validate (arg_published_date a) (arg_isbn_number a)) = [] ->
  existsb (has_isbn (arg_isbn_number a)) (table d) = false ->
  bindable a = false ->
  mutate a d =
  (Raise UnicodeEncodeError,
   mkdb (table d) (log d ++ [SelectExists (arg_isbn_number a)])).
Proof.
  intros Hv Hex Hb. pose proof (valid_isbn_encodable _ _ Hv) as He.
  pose proof (proj1 (validate_passes _ _) Hv) as [_ Hd].
  pose proof (validate_date (arg_published_date a) (arg_isbn_number a)) as Hp.
  unfold mutate.
  destruct (validate (arg_published_date a) (arg_isbn_number a))
    as [errs pd]; simpl in Hv, Hp. subst errs. subst pd.
  destruct (Datetime.fromisoformat (arg_published_date a)); [|congruence].
  unfold bind, exists_isbn, create, ret. unfold bindable in Hb.
  rewrite Hb, He, Hex. reflexivity.
Qed.

(** [mutate] always leaves by one of the four. *)
Lemma mutate_cases (a : Arguments) (d : db) :
  (fst (validate (arg_published_date a) (arg_isbn_number a)) <> []
   /\ mutate a d =
      (Ok (mkCreateBook None false
             (fst (validate (arg_published_date a) (arg_isbn_number a)))), d))
  \/ (fst (validate (arg_published_date a) (arg_isbn_number a)) = []
      /\ existsb (has_isbn (arg_isbn_number a)) (table d) = true
      /\ mutate a d =
         (Ok (mkCreateBook None false [duplicate_error]),
          mkdb (table d) (log d ++ [SelectExists (arg_isbn_number a)])))
  \/ (fst (validate (arg_published_date a) (arg_isbn_number a)) = []
      /\ existsb (has_isbn (arg_isbn_number a)) (table d) = false
      /\ bindable a = true
      /\ exists pub_date,
           Datetime.fromisoformat (arg_published_date a) = Some pub_date
           /\ mutate a d =
              (Ok (mkCreateBook (Some (new_book a pub_date d)) true []),
               mkdb (table d ++ [new_book a pub_date d])
                    (log d ++ [SelectExists (arg_isbn_number a);
                               Insert (arg_isbn_number a)])))
  \/ (fst (validate (arg_published_date a) (arg_isbn_number a)) = []
      /\ existsb (has_isbn (arg_isbn_number a)) (table d) = false
      /\ bindable a = false
      /\ mutate a d =
         (Raise UnicodeEncodeError,
          mkdb (table d) (log d ++ [SelectExists (arg_isbn_number a)]))).
Proof.
  destruct (fst (validate (arg_published_date a) (arg_isbn_number a)))
    as [|e errs] eqn:Hv.
  - right.
    destruct (existsb (has_isbn (arg_isbn_number a)) (table d)) eqn:Hex.
    + left. split; [reflexivity|]. split; [reflexivity|].
      apply mutate_duplicate; assumption.
    + right. destruct (bindable a) eqn:Hb.
      * left. split; [reflexivity|]. split; [reflexivity|].
        split; [reflexivity|].
        pose proof (proj1 (validate_passes _ _) Hv) as [_ Hd].
        destruct (Datetime.fromisoformat (arg_published_date a))
          as [pub_date|] eqn:Hp; [|congruence].
        exists pub_date. split; [reflexivity|].
        apply mutate_created; assumption.
      * right. split; [reflexivity|]. split; [reflexivity|].
        split; [reflexivity|]. apply mutate_unbindable; assumption.
  - left. split; [discriminate|]. rewrite <- Hv.
    apply mutate_invalid. rewrite Hv. discriminate.
Qed.

(** C3: [mutate] writes to the store only when it succeeds.  When
    validation fails the payload is
    [{ok: false, book: None, errors: the validation messages}] and the
    database is not contacted at all (the log does not grow).  When
    validation passes and the isbn_number is taken, the payload is a
    failure and the only statement issued is the existence query.  In
    every case at most one INSERT is issued, and whenever the payload is a
    failure the table is left as it was; so it is when the call raises
    instead of returning a payload (a text value that the driver cannot
    encode), and no INSERT has been run then. *)
Theorem writes_only_on_success (a : Arguments) (d : db) :
  (fst (validate (arg_published_date a) (arg_isbn_number a)) <> [] ->
   mutate a d =
   (Ok (mkCreateBook None false
          (fst (validate (arg_published_date a) (arg_isbn_number a)))),
    d))
  /\ (fst (validate (arg_published_date a) (arg_isbn_number a)) = [] ->
      existsb (has_isbn (arg_isbn_number a)) (table d) = true ->
      exists p, fst (mutate a d) = Ok p /\ ok p = false /\ book p = None
                /\ table (snd (mutate a d)) = table d
                /\ issued d (snd (mutate a d))
                          [SelectExists (arg_isbn_number a)])
  /\ (exists new, issued d (snd (mutate a d)) new
                  /\ (List.length (filter is_write new) <= 1)%nat)
  /\ (forall p, fst (mutate a d) = Ok p -> ok p = false ->
                table (snd (mutate a d)) = table d
                /\ exists new, issued d (snd (mutate a d)) new
                               /\ filter is_write new = [])
  /\ (forall e, fst (mutate a d) = Raise e ->
                table (snd (mutate a d)) = table d
                /\ exists new, issued d (snd (mutate a d)) new
                               /\ filter is_write new = []).
Proof.
  unfold issued.
  destruct (mutate_cases a d)
    as [(Hv & E) | [(Hv & Hex & E) | [(Hv & Hex & Hb & pub & Hp & E)
                                     | (Hv & Hex & Hb & E)]]];
    rewrite E; simpl.
  - split; [reflexivity|]. split; [congruence|].
    split; [exists []; rewrite app_nil_r; auto|].
    split; [|discriminate].
    intros p _ _. split; [reflexivity|]. exists []. rewrite app_nil_r. auto.
  - split; [congruence|]. split.
    + intros _ _. eexists. repeat split.
    + split; [eexists; split; [reflexivity|simpl; lia]|].
      split; [|discriminate].
      intros p _ _. split; [reflexivity|]. eexists. split; reflexivity.
  - split; [congruence|]. split; [congruence|]. split.
    + eexists. split; [reflexivity|]. simpl. lia.
    + split; [|discriminate].
      intros p Hp' Hok. inversion Hp'; subst p. discriminate.
  - split; [congruence|]. split; [congruence|]. split.
    + eexists. split; [reflexivity|]. simpl. lia.
    + split; [discriminate|].
      intros e _. split; [reflexivity|]. eexists. split; reflexivity.
Qed.

(** On a date that does not parse, nothing reaches the database. *)
Lemma writes_only_on_success_witness :
  fst (validate (arg_published_date Samples.animal_farm_bad_date)
                (arg_isbn_number Samples.animal_farm_bad_date)) <> []
  /\ mutate Samples.animal_farm_bad_date Samples.db_1984
     = (Ok (mkCreateBook None false [date_error]), Samples.db_1984).
Proof.
  assert (H : fst (validate (arg_published_date Samples.animal_farm_bad_date)
                            (arg_isbn_number Samples.animal_farm_bad_date))
              <> []) by (vm_compute; discriminate).
  split; [exact H|].
  exact (proj1 (writes_only_on_success Samples.animal_farm_bad_date
                                       Samples.db_1984) H).
Defined.

(** When both checks of the code fail in the same call (the pattern does
    not match and the parser refuses the date), the payload carries both
    messages, the ISBN one first, and the database is untouched. *)
Lemma both_checks_fail (a : Arguments) (d : db) :
  re_match isbn_re (arg_isbn_number a) = None ->
  Datetime.fromisoformat (arg_published_date a) = None ->
  mutate a d = (Ok (mkCreateBook None false [isbn_error; date_error]), d).
Proof.
  intros Hi Hd.
  assert (E : fst (validate (arg_published_date a) (arg_isbn_number a))
              = [isbn_error; date_error])
    by (rewrite validate_errors, Hi, Hd; reflexivity).
  rewrite <- E. apply mutate_invalid. rewrite E. discriminate.
Qed.

(** C7 fails where the checks of the code are wider than the two rules.
    "1234567890\n" is not 10 or 13 digits (eleven characters, the last a
    line feed) and "01/01/2021" is not YYYY-MM-DD, yet the payload carries
    the date message alone, because [$] matches before the final line
    feed.  "12-34" is not 10 or 13 digits and "20210101" is not
    YYYY-MM-DD (eight characters, no hyphen), yet the payload carries the
    ISBN message alone, because [fromisoformat] reads the basic format.
    Neither call touches the database. *)
Theorem one_message_for_two_failures :
  List.length Samples.isbn_with_newline = 11%nat
  /\ forallb is_decimal Samples.isbn_with_newline = false
  /\ (forall y1 y2 y3 y4 m1 m2 d1 d2,
         lit "01/01/2021" <> strict y1 y2 y3 y4 m1 m2 d1 d2)
  /\ (forall d,
         mutate (Samples.dune Samples.isbn_with_newline (lit "01/01/2021")) d
         = (Ok (mkCreateBook None false [date_error]), d))
  /\ List.length (lit "12-34") = 5%nat
  /\ (forall y1 y2 y3 y4 m1 m2 d1 d2,
         lit "20210101" <> strict y1 y2 y3 y4 m1 m2 d1 d2)
  /\ (forall d,
         mutate (Samples.dune (lit "12-34") (lit "20210101")) d
         = (Ok (mkCreateBook None false [isbn_error]), d)).
Proof.
  split; [reflexivity|]. split; [vm_compute; reflexivity|].
  split; [intros; unfold strict; vm_compute; discriminate|].
  split.
  { intro d.
    assert (E : fst (validate (lit "01/01/2021") Samples.isbn_with_newline)
                = [date_error]) by (vm_compute; reflexivity).
    rewrite <- E.
    apply (mutate_invalid
             (Samples.dune Samples.isbn_with_newline (lit "01/01/2021")) d).
    cbn [Samples.dune arg_published_date arg_isbn_number].
    rewrite E. discriminate. }
  split; [reflexivity|].
  split; [intros; unfold strict; vm_compute; discriminate|].
  intro d.
  assert (E : fst (validate (lit "20210101") (lit "12-34")) = [isbn_error])
    by (vm_compute; reflexivity).
  rewrite <- E.
  apply (mutate_invalid (Samples.dune (lit "12-34") (lit "20210101")) d).
  cbn [Samples.dune arg_published_date arg_isbn_number].
  rewrite E. discriminate.
Qed.

(** C5 as stated fails: a title that holds a lone surrogate (the JSON
    string "\ud800") with a valid isbn_number and published_date and an
    empty table.  The driver cannot encode the title, the INSERT raises
    UnicodeEncodeError, and no Book is stored. *)
Lemma unencodable_title_counterexample :
  ~ (forall (a : Arguments) (d : db) (pub_date : Datetime.date),
        re_match isbn_re (arg_isbn_number a) <> None ->
        Datetime.fromisoformat (arg_published_date a) = Some pub_date ->
        (forall b, In b (table d) -> isbn_number b <> arg_isbn_number a) ->
        exists b : Book,
          fst (mutate a d) = Ok (mkCreateBook (Some b) true [])
          /\ table (snd (mutate a d)) = table d ++ [b]).
Proof.
  intro H.
  destruct (H Samples.surrogate_title Samples.empty_db
              (Datetime.mkdate 1965 8 1)) as (b & Hb & _).
  - vm_compute. discriminate.
  - vm_compute. reflexivity.
  - intros b [].
  - assert (E : fst (mutate Samples.surrogate_title Samples.empty_db)
                = Raise UnicodeEncodeError) by (vm_compute; reflexivity).
    rewrite E in Hb. discriminate Hb.
Qed.

(** C5, amended: when the isbn_number passes the ISBN check, the
    published_date parses, no row has the isbn_number, and title, author,
    language and cover_image (if given) have a UTF-8 encoding (they hold
    no lone surrogate), [mutate] appends exactly one row to the table,
    carrying the given title, author, isbn_number, pages, cover_image and
    language and, as its published_date, the date that [fromisoformat]
    reads from the argument: a calendar date, and for an argument written
    YYYY-MM-DD the year, month and day that its digits spell.  It returns
    [{ok: true, book: that row, errors: []}].  When one of the four values
    has no encoding the call raises and the table is left as it was. *)
Theorem valid_new_book_created (a : Arguments) (d : db) :
  re_match isbn_re (arg_isbn_number a) <> None ->
  Datetime.fromisoformat (arg_published_date a) <> None ->
  (forall b, In b (table d) -> isbn_number b <> arg_isbn_number a) ->
  (encodable (arg_title a) && encodable (arg_author a)
   && encodable_opt (arg_cover_image a) && encodable (arg_language a) = true ->
   exists b : Book,
     fst (mutate a d) = Ok (mkCreateBook (Some b) true [])
     /\ table (snd (mutate a d)) = table d ++ [b]
     /\ ~ In b (table d)
     /\ issued d (snd (mutate a d))
               [SelectExists (arg_isbn_number a); Insert (arg_isbn_number a)]
     /\ title b = arg_title a
     /\ author b = arg_author a
     /\ Datetime.fromisoformat (arg_published_date a)
        = Some (published_date b)
     /\ Datetime.check_date_args (published_date b) = true
     /\ (forall y1 y2 y3 y4 m1 m2 d1 d2 : N,
            (y1 <= 9 /\ y2 <= 9 /\ y3 <= 9 /\ y4 <= 9 /\ m1 <= 9 /\ m2 <= 9
             /\ d1 <= 9 /\ d2 <= 9)%N ->
            arg_published_date a = strict y1 y2 y3 y4 m1 m2 d1 d2 ->
            published_date b
            = Datetime.mkdate
                (Z.of_N (1000 * y1 + 100 * y2 + 10 * y3 + y4))
                (Z.of_N (10 * m1 + m2)) (Z.of_N (10 * d1 + d2)))
     /\ isbn_number b = arg_isbn_number a
     /\ pages b = arg_pages a
     /\ cover_image b = arg_cover_image a
     /\ language b = arg_language a)
  /\ (encodable (arg_title a) && encodable (arg_author a)
      && encodable_opt (arg_cover_image a) && encodable (arg_language a)
      = false ->
      fst (mutate a d) = Raise UnicodeEncodeError
      /\ table (snd (mutate a d)) = table d).
Proof.
  intros Hi Hd Hfree.
  assert (Hv : fst (validate (arg_published_date a) (arg_isbn_number a)) = [])
    by (apply validate_passes; split; congruence).
  assert (Hex : existsb (has_isbn (arg_isbn_number a)) (table d) = false)
    by (apply isbn_free; exact Hfree).
  pose proof (valid_isbn_encodable _ _ Hv) as He.
  assert (Hbind : bindable a
                  = encodable (arg_title a) && encodable (arg_author a)
                    && encodable_opt (arg_cover_image a)
                    && encodable (arg_language a)).
  { unfold bindable. rewrite He.
    destruct (encodable (arg_title a)), (encodable (arg_author a)),
      (encodable_opt (arg_cover_image a)), (encodable (arg_language a));
      reflexivity. }
  rewrite <- Hbind. split; intro Hb.
  - destruct (Datetime.fromisoformat (arg_published_date a))
      as [pub_date|] eqn:Hp; [|congruence].
    exists (new_book a pub_date d).
    rewrite (mutate_created a d Hv Hp Hex Hb). unfold issued. simpl.
    split; [reflexivity|]. split; [reflexivity|].
    split; [intro Hin; apply (Hfree _ Hin); reflexivity|].
    split; [reflexivity|]. split; [reflexivity|]. split; [reflexivity|].
    split; [reflexivity|].
    split; [exact (fromisoformat_valid _ Hp)|].
    split; [|repeat split].
    intros y1 y2 y3 y4 m1 m2 d1 d2 Hr Hs. rewrite Hs in Hp.
    rewrite fromisoformat_strict in Hp by tauto. cbv zeta in Hp.
    destruct (Datetime.check_date_args _) in Hp; [|discriminate].
    inversion Hp. reflexivity.
  - rewrite (mutate_unbindable a d Hv Hex Hb). split; reflexivity.
Qed.

Lemma valid_new_book_created_witness :
  exists b : Book,
    fst (mutate (Samples.dune (lit "9780441013593") (lit "1965-08-01"))
                Samples.db_1984)
    = Ok (mkCreateBook (Some b) true [])
    /\ table (snd (mutate (Samples.dune (lit "9780441013593")
                                        (lit "1965-08-01"))
                          Samples.db_1984))
       = [Samples.book_1984; b]
    /\ Datetime.fromisoformat (lit "1965-08-01") = Some (published_date b).
Proof.
  destruct (@valid_new_book_created
              (Samples.dune (lit "9780441013593") (lit "1965-08-01"))
              Samples.db_1984)
    as [H _].
  - vm_compute. discriminate.
  - vm_compute. discriminate.
  - intros b [<- | []]. vm_compute. discriminate.
  - destruct H as (b & H1 & H2 & _ & _ & _ & _ & H3 & _).
    + vm_compute. reflexivity.
    + exists b. auto.
Defined.

(** C4 as stated fails: a request that repeats an existing isbn_number is
    answered with the duplicate message "regardless of its other fields"
    only if those fields pass validation.  With the ISBN of
    [Samples.book_1984] and the published_date "1945/08/17" the payload
    carries the date message instead. *)
Lemma duplicate_isbn_bad_date_counterexample :
  ~ (forall (a : Arguments) (d : db),
        unique_isbn (table d) ->
        existsb (has_isbn (arg_isbn_number a)) (table d) = true ->
        fst (mutate a d) = Ok (mkCreateBook None false [duplicate_error])).
Proof.
  intro H.
  specialize (H Samples.animal_farm_bad_date Samples.db_1984).
  assert (E : fst (mutate Samples.animal_farm_bad_date Samples.db_1984)
              = Ok (mkCreateBook None false [date_error]))
    by (vm_compute; reflexivity).
  rewrite E in H.
  assert (X : Ok (mkCreateBook None false [date_error])
              = Ok (mkCreateBook None false [duplicate_error])).
  { apply H.
    - unfold unique_isbn. simpl. constructor; [intros []|constructor].
    - vm_compute. reflexivity. }
  vm_compute in X. discriminate X.
Qed.

(** C4, amended: in a table where no two rows share an isbn_number, a
    request whose isbn_number is already in the table and whose
    isbn_number and published_date pass validation is answered with
    [{ok: false, book: None, errors: ["Book with this ISBN already
    exists."]}]; if validation fails it is answered with the validation
    messages instead; either way the number of rows with that isbn_number
    stays 1.  After any call of [mutate] no two rows share an
    isbn_number. *)
Theorem isbn_unique_preserved (a : Arguments) (d : db) :
  unique_isbn (table d) ->
  unique_isbn (table (snd (mutate a d)))
  /\ (existsb (has_isbn (arg_isbn_number a)) (table d) = true ->
      count_isbn (arg_isbn_number a) (table d) = 1%nat
      /\ count_isbn (arg_isbn_number a) (table (snd (mutate a d))) = 1%nat
      /\ (fst (validate (arg_published_date a) (arg_isbn_number a)) = [] ->
          fst (mutate a d) = Ok (mkCreateBook None false [duplicate_error]))
      /\ (fst (validate (arg_published_date a) (arg_isbn_number a)) <> [] ->
          fst (mutate a d) =
          Ok (mkCreateBook None false
                (fst (validate (arg_published_date a)
                               (arg_isbn_number a)))))).
Proof.
  intro Hu.
  destruct (mutate_cases a d)
    as [(Hv & E) | [(Hv & Hex & E) | [(Hv & Hex & Hb & pub & Hp & E)
                                     | (Hv & Hex & Hb & E)]]];
    rewrite E; simpl.
  - split; [exact Hu|]. intro Hex.
    pose proof (count_isbn_unique _ Hu Hex). repeat split; congruence.
  - split; [exact Hu|]. intros _.
    pose proof (count_isbn_unique _ Hu Hex). repeat split; congruence.
  - split; [|congruence].
    unfold unique_isbn in *. rewrite map_app. simpl.
    apply NoDup_app; [exact Hu|repeat constructor; intros []|].
    intros x Hx [<-|[]].
    apply existsb_has_isbn in Hx. congruence.
  - split; [exact Hu|congruence].
Qed.

(** A second "9780451524935" is refused and the table keeps its one row. *)
Lemma isbn_unique_preserved_witness :
  unique_isbn (table Samples.db_1984)
  /\ fst (mutate Samples.animal_farm Samples.db_1984)
     = Ok (mkCreateBook None false [duplicate_error])
  /\ count_isbn (lit "9780451524935")
                (table (snd (mutate Samples.animal_farm Samples.db_1984)))
     = 1%nat.
Proof.
  assert (Hu : unique_isbn (table Samples.db_1984)).
  { unfold unique_isbn. simpl. constructor; [intros []|constructor]. }
  destruct (isbn_unique_preserved Samples.animal_farm Samples.db_1984 Hu) as [_ H].
  destruct H as (_ & Hc & Hd & _); [vm_compute; reflexivity|].
  split; [exact Hu|]. split; [|exact Hc].
  apply Hd. vm_compute. reflexivity.
Defined.

(** C1 at "1234567890\n": the string has eleven code points and its last
    one is no digit, yet [isbn_re] matches it ([$] also matches before a
    final line feed), validation reports nothing and the Book is stored
    with the line feed in its isbn_number. *)
Theorem isbn_trailing_newline_accepted :
  List.length Samples.isbn_with_newline = 11%nat
  /\ forallb is_decimal Samples.isbn_with_newline = false
  /\ re_match isbn_re Samples.isbn_with_newline <> None
  /\ fst (validate (lit "1965-08-01") Samples.isbn_with_newline) = []
  /\ exists b : Book,
       mutate (Samples.dune Samples.isbn_with_newline (lit "1965-08-01"))
              Samples.empty_db
       = (Ok (mkCreateBook (Some b) true []),
          mkdb [b] [SelectExists Samples.isbn_with_newline;
                    Insert Samples.isbn_with_newline])
       /\ isbn_number b = Samples.isbn_with_newline.
Proof.
  split; [reflexivity|]. split; [vm_compute; reflexivity|].
  split; [vm_compute; discriminate|]. split; [vm_compute; reflexivity|].
  eexists. split; vm_compute; reflexivity.
Qed.

(** C2 at "20210101": [date.fromisoformat] (Python 3.11 and later) reads
    the basic format YYYYMMDD, so validation reports no date error and the
    Book is stored with the date 2021-01-01; the ISO week form
    "2021-W01-1" is read as well. *)
Theorem compact_date_accepted :
  Datetime.fromisoformat (lit "20210101") = Some (Datetime.mkdate 2021 1 1)
  /\ Datetime.fromisoformat (lit "2021-W01-1")
     = Some (Datetime.mkdate 2021 1 4)
  /\ fst (validate (lit "20210101") (lit "9780441013593")) = []
  /\ exists b : Book,
       mutate (Samples.dune (lit "9780441013593") (lit "20210101"))
              Samples.empty_db
       = (Ok (mkCreateBook (Some b) true []),
          mkdb [b] [SelectExists (lit "9780441013593");
                    Insert (lit "9780441013593")])
       /\ published_date b = Datetime.mkdate 2021 1 1.
Proof.
  split; [vm_compute; reflexivity|]. split; [vm_compute; reflexivity|].
  split; [vm_compute; reflexivity|].
  eexists. split; vm_compute; reflexivity.
Qed.

(** ** [Query.resolve_search_books] *)

Lemma starts_with_spec (p : str) : forall s : str,
  starts_with p s = true <-> exists post, s = p ++ post.
Proof.
  induction p as [|a p IH]; intro s; simpl.
  - split; [intros _; exists s; reflexivity|reflexivity].
  - destruct s as [|b s].
    + split; [discriminate|intros (post & H); discriminate].
    + rewrite andb_true_iff, N.eqb_eq, IH. split.
      * intros (-> & post & ->). exists post. reflexivity.
      * intros (post & H). inversion H; subst. split; [reflexivity|].
        exists post. reflexivity.
Qed.

Lemma contains_spec (p : str) : forall s : str,
  contains p s = true <-> substring p s.
Proof.
  unfold substring.
  induction s as [|b s IH].
  - simpl. rewrite orb_false_r, starts_with_spec. split.
    + intros (post & H). exists [], post. exact H.
    + intros (pre & post & H). destruct pre as [|x pre]; [|discriminate].
      exists post. exact H.
  - change (contains p (b :: s))
      with (starts_with p (b :: s) || contains p s).
    rewrite orb_true_iff, starts_with_spec, IH. split.
    + intros [(post & H) | (pre & post & H)].
      * exists [], post. exact H.
      * exists (b :: pre), post. rewrite H. reflexivity.
    + intros (pre & post & H). destruct pre as [|x pre].
      * left. exists post. exact H.
      * right. inversion H; subst. exists pre, post. reflexivity.
Qed.

(** *** Sanitized queries *)

Lemma kept_facts (c : char) :
  kept c = true ->
  (c <> 0 /\ c <> 0x5C /\ c <> 0x25 /\ c <> 0x5F
   /\ (c < 0xD800 \/ 0xDFFF < c))%N.
Proof.
  unfold kept, is_ascii_lower, is_ascii_upper, is_ascii_digit, is_space,
    in_range.
  rewrite !orb_true_iff, !andb_true_iff, !N.leb_le, !N.eqb_eq. lia.
Qed.

Lemma forallb_filter {T} (f : T -> bool) (l : list T) :
  forallb f (filter f l) = true.
Proof.
  apply forallb_forall. intros x Hx. apply filter_In in Hx. tauto.
Qed.

Lemma sanitized_kept (q : str) :
  forallb kept (re_sub sanitize_re [] q) = true.
Proof.
  rewrite sanitize_is_filter. apply forallb_filter.
Qed.

Lemma kept_encodable (q : str) :
  forallb kept q = true -> encodable q = true.
Proof.
  apply encodable_forall. intros c Hc E.
  apply utf8_char_none in E. apply kept_facts in Hc. lia.
Qed.

Lemma kept_no_nul (q : str) : forallb kept q = true -> has_nul q = false.
Proof.
  induction q as [|c q IH]; [reflexivity|].
  cbn [forallb has_nul existsb]. rewrite andb_true_iff. intros [Hc Hq].
  apply kept_facts in Hc. fold (has_nul q). rewrite (IH Hq).
  destruct (N.eqb_spec c 0); [lia|reflexivity].
Qed.

Lemma kept_like_pattern (q : str) :
  forallb kept q = true -> like_pattern q = [0x25%N] ++ q ++ [0x25%N].
Proof.
  intro H. unfold like_pattern. do 2 f_equal.
  induction q as [|c q IH]; [reflexivity|].
  cbn [forallb] in H. apply andb_true_iff in H as [Hc Hq].
  cbn [flat_map]. rewrite (IH Hq). apply kept_facts in Hc.
  unfold like_escape.
  destruct (N.eqb_spec c 0x5C); [lia|].
  destruct (N.eqb_spec c 0x25); [lia|].
  destruct (N.eqb_spec c 0x5F); [lia|]. reflexivity.
Qed.

Lemma utf8_app (s t : str) :
  Datetime.utf8 (s ++ t)
  = match Datetime.utf8 s, Datetime.utf8 t with
    | Some a, Some b => Some (a ++ b)
    | _, _ => None
    end.
Proof.
  induction s as [|c s IH].
  - cbn [app Datetime.utf8]. destruct (Datetime.utf8 t); reflexivity.
  - cbn [app Datetime.utf8]. rewrite IH.
    destruct (Datetime.utf8_char c), (Datetime.utf8 s), (Datetime.utf8 t);
      try reflexivity.
    rewrite app_assoc. reflexivity.
Qed.

(** The search for a sanitized query: it raises on a pattern that is too
    long when there is a row to compare, and returns the selected rows
    otherwise. *)
Lemma search_kept (q : str) (d : db) :
  forallb kept q = true ->
  search q d
  = if like_raises q (table d)
    then (Raise OperationalError,
          mkdb (table d) (log d ++ [SelectSearch q]))
    else (Ok (nodup Book_eq_dec (filter (search_Q q) (table d))),
          mkdb (table d) (log d ++ [SelectSearch q])).
Proof.
  intro H. unfold search, like_raises, utf8_size.
  rewrite (kept_like_pattern q H), !utf8_app.
  pose proof (kept_encodable q H) as He. unfold encodable in He.
  destruct (Datetime.utf8 q) as [bs|]; [|discriminate].
  change (Datetime.utf8 [0x25%N]) with (Some [0x25%N]).
  cbv iota beta.
  replace (pattern_too_long ([0x25%N] ++ bs ++ [0x25%N]))
    with (49998 <? N.of_nat (List.length bs))%N; [reflexivity|].
  unfold pattern_too_long, max_like_pattern.
  rewrite !length_app. cbn [List.length].
  destruct (N.ltb_spec 49998 (N.of_nat (List.length bs))),
    (N.ltb_spec 50000 (N.of_nat (1 + (List.length bs + 1))));
    try reflexivity; lia.
Qed.

Lemma search_Q_spec (q : str) (b : Book) :
  has_nul q = false ->
  search_Q q b = true <-> matches ilike q b.
Proof.
  intro H. unfold search_Q, matches, ilike, isubstring, icontains.
  rewrite H, !orb_true_iff, !contains_spec. tauto.
Qed.

Lemma search_result (q : str) (t : list Book) (b : Book) :
  has_nul q = false ->
  In b (nodup Book_eq_dec (filter (search_Q q) t))
  <-> In b t /\ matches ilike q b.
Proof.
  intro H. rewrite nodup_In, filter_In, (@search_Q_spec q b H). reflexivity.
Qed.

(** The two short cuts and the query, by the sanitized string. *)
Lemma resolve_search_books_empty (q : str) (d : db) :
  re_sub sanitize_re [] q = [] ->
  resolve_search_books (Some q) d = (Ok [], d).
Proof.
  intro H. unfold resolve_search_books.
  destruct q as [|c q]; [reflexivity|]. rewrite H. reflexivity.
Qed.

Lemma resolve_search_books_query (q : str) (d : db) :
  re_sub sanitize_re [] q <> [] ->
  resolve_search_books (Some q) d = search (re_sub sanitize_re [] q) d.
Proof.
  intro H. unfold resolve_search_books.
  destruct q as [|c q]; [elim H; reflexivity|].
  destruct (re_sub sanitize_re [] (c :: q)); [congruence|reflexivity].
Qed.

(** Every exit of the resolver. *)
Lemma resolve_search_books_cases (query : option str) (d : db) :
  resolve_search_books query d = (Ok [], d)
  \/ exists q,
       query = Some q
       /\ re_sub sanitize_re [] q <> []
       /\ resolve_search_books query d
          = if like_raises (re_sub sanitize_re [] q) (table d)
            then (Raise OperationalError,
                  mkdb (table d)
                       (log d ++ [SelectSearch (re_sub sanitize_re [] q)]))
            else (Ok (nodup Book_eq_dec
                        (filter (search_Q (re_sub sanitize_re [] q))
                                (table d))),
                  mkdb (table d)
                       (log d ++ [SelectSearch (re_sub sanitize_re [] q)])).
Proof.
  destruct query as [q|]; [|left; reflexivity].
  destruct (re_sub sanitize_re [] q) as [|c sq] eqn:E.
  - left. apply resolve_search_books_empty. exact E.
  - right. exists q. split; [reflexivity|]. rewrite E.
    split; [discriminate|].
    rewrite resolve_search_books_query by (rewrite E; discriminate).
    rewrite E. apply search_kept. rewrite <- E. apply sanitized_kept.
Qed.

(** C6 as stated fails on a column that holds a NUL: LIKE reads a column
    up to its first NUL, so the row titled "Du", NUL, "ne" is not returned
    for the query "ne", of which "NE" is a case-insensitive substring of
    the title. *)
Lemma nul_hides_match_counterexample :
  ~ (forall (q : str) (d : db),
        re_sub sanitize_re [] q <> [] ->
        exists res : list Book,
          fst (resolve_search_books (Some q) d) = Ok res
          /\ forall b, In b res <->
                       In b (table d)
                       /\ matches isubstring (re_sub sanitize_re [] q) b).
Proof.
  intro H.
  destruct (H (lit "ne") (mkdb [Samples.nul_dune] []))
    as (res & E & Hres); [vm_compute; discriminate|].
  assert (E' : fst (resolve_search_books (Some (lit "ne"))
                      (mkdb [Samples.nul_dune] []))
               = Ok []) by (vm_compute; reflexivity).
  rewrite E' in E. inversion E; subst res.
  apply (proj2 (Hres Samples.nul_dune)).
  split; [left; reflexivity|].
  left. unfold isubstring. apply contains_spec. vm_compute. reflexivity.
Qed.

(** C6, amended: a missing query, and a query that sanitization (dropping
    every character that is not an ASCII letter, an ASCII digit or
    whitespace) empties, give the empty list without a statement reaching
    the database; "O'Brien; DROP" is sanitized to "OBrien DROP" and "!!!"
    to the empty string.  Otherwise one SELECT is issued.  Unless the
    table has a row and the sanitized string is longer than 49998 bytes in
    UTF-8, the result holds, once each, exactly the rows in which the
    sanitized string is a case-insensitive substring of the part before
    the first NUL of title, author, isbn_number or language; in the
    remaining case the call raises OperationalError. *)
Theorem search_books_spec :
  (forall q, re_sub sanitize_re [] q = filter kept q)
  /\ re_sub sanitize_re [] (lit "O'Brien; DROP") = lit "OBrien DROP"
  /\ re_sub sanitize_re [] (lit "!!!") = []
  /\ (forall d, resolve_search_books None d = (Ok [], d))
  /\ (forall q d, re_sub sanitize_re [] q = [] ->
                  resolve_search_books (Some q) d = (Ok [], d))
  /\ (forall q d, re_sub sanitize_re [] q <> [] ->
        like_raises (re_sub sanitize_re [] q) (table d) = false ->
        exists res : list Book,
          resolve_search_books (Some q) d
          = (Ok res, mkdb (table d)
                          (log d ++ [SelectSearch (re_sub sanitize_re [] q)]))
          /\ NoDup res
          /\ forall b, In b res <->
                       In b (table d)
                       /\ matches ilike (re_sub sanitize_re [] q) b)
  /\ (forall q d, re_sub sanitize_re [] q <> [] ->
        like_raises (re_sub sanitize_re [] q) (table d) = true ->
        resolve_search_books (Some q) d
        = (Raise OperationalError,
           mkdb (table d)
                (log d ++ [SelectSearch (re_sub sanitize_re [] q)]))).
Proof.
  split; [exact sanitize_is_filter|].
  split; [vm_compute; reflexivity|].
  split; [vm_compute; reflexivity|].
  split; [reflexivity|].
  split; [exact resolve_search_books_empty|].
  split.
  - intros q d H Hl. rewrite (resolve_search_books_query q d H).
    rewrite (@search_kept _ d (sanitized_kept q)), Hl.
    eexists. split; [reflexivity|]. split; [apply NoDup_nodup|].
    intro b. apply search_result, kept_no_nul, sanitized_kept.
  - intros q d H Hl. rewrite (resolve_search_books_query q d H).
    rewrite (@search_kept _ d (sanitized_kept q)), Hl. reflexivity.
Qed.

(** "dune" finds the row titled "Dune", once. *)
Lemma search_books_spec_witness :
  exists res : list Book,
    fst (resolve_search_books (Some (lit "dune"))
           (mkdb [Samples.book_1984;
                  new_book (Samples.dune (lit "9780441013593") [])
                           (Datetime.mkdate 1965 8 1) Samples.db_1984] []))
    = Ok res
    /\ NoDup res
    /\ List.length res = 1%nat.
Proof.
  destruct search_books_spec as (_ & _ & _ & _ & _ & H & _).
  destruct (H (lit "dune")
              (mkdb [Samples.book_1984;
                     new_book (Samples.dune (lit "9780441013593") [])
                              (Datetime.mkdate 1965 8 1) Samples.db_1984] []))
    as (res & E & Hnd & _).
  - vm_compute. discriminate.
  - vm_compute. reflexivity.
  - exists res. rewrite E. split; [reflexivity|]. split; [exact Hnd|].
    vm_compute in E. inversion E. reflexivity.
Defined.

(** Whitespace lies outside 'A'..'z', so upper-casing neither changes it
    nor produces it. *)
Lemma space_not_letter (c : char) :
  is_space c = true -> (c < 0x41 \/ 0x7A < c)%N.
Proof.
  unfold is_space, in_range.
  rewrite !orb_true_iff, !andb_true_iff, !N.leb_le, !N.eqb_eq. lia.
Qed.

Lemma upper_space (c : char) : is_space c = true -> upper c = c.
Proof.
  intro H. apply space_not_letter in H. unfold upper, is_ascii_lower, in_range.
  destruct (N.leb_spec 0x61 c), (N.leb_spec c 0x7A); simpl;
    try reflexivity; lia.
Qed.

Lemma eqb_upper_space (a b : char) :
  is_space a = true -> (a =? upper b)%N = (a =? b)%N.
Proof.
  intro H. apply space_not_letter in H. unfold upper, is_ascii_lower, in_range.
  destruct (N.leb_spec 0x61 b), (N.leb_spec b 0x7A); simpl;
    try reflexivity.
  destruct (N.eqb_spec a (b - 32)), (N.eqb_spec a b); try reflexivity; lia.
Qed.

Lemma map_upper_space (q : str) :
  forallb is_space q = true -> map upper q = q.
Proof.
  induction q as [|c q IH]; simpl; [reflexivity|].
  rewrite andb_true_iff. intros [Hc Hq].
  rewrite (upper_space c Hc), (IH Hq). reflexivity.
Qed.

Lemma starts_with_upper_space (q : str) : forall s : str,
  forallb is_space q = true ->
  starts_with q (map upper s) = starts_with q s.
Proof.
  induction q as [|c q IH]; intros s H; simpl; [reflexivity|].
  simpl in H. apply andb_true_iff in H as [Hc Hq].
  destruct s as [|b s]; simpl; [reflexivity|].
  rewrite (eqb_upper_space c b Hc), (IH s Hq). reflexivity.
Qed.

Lemma contains_upper_space (q : str) : forall s : str,
  forallb is_space q = true ->
  contains q (map upper s) = contains q s.
Proof.
  induction s as [|b s IH]; intro H.
  - reflexivity.
  - change (contains q (map upper (b :: s)))
      with (starts_with q (map upper (b :: s)) || contains q (map upper s)).
    change (contains q (b :: s)) with (starts_with q (b :: s) || contains q s).
    rewrite (starts_with_upper_space q (b :: s) H), (IH H). reflexivity.
Qed.

(** For a query of whitespace, ignoring case changes nothing. *)
Lemma isubstring_space (q field : str) :
  forallb is_space q = true -> isubstring q field <-> substring q field.
Proof.
  intro H. unfold isubstring. rewrite (map_upper_space q H).
  rewrite <- !contains_spec, (contains_upper_space q field H). reflexivity.
Qed.

Lemma filter_all {T} (f : T -> bool) (l : list T) :
  forallb f l = true -> filter f l = l.
Proof.
  induction l as [|x l IH]; simpl; [reflexivity|].
  rewrite andb_true_iff. intros [Hx Hl]. rewrite Hx, (IH Hl). reflexivity.
Qed.

(** C9 as stated fails on a column that holds a NUL: the row titled "a",
    NUL, " b" contains a space and is not returned for the query " ". *)
Lemma nul_hides_space_counterexample :
  ~ (forall (q : str) (d : db),
        q <> [] ->
        forallb is_space q = true ->
        exists res : list Book,
          fst (resolve_search_books (Some q) d) = Ok res
          /\ forall b, In b (table d) -> matches substring q b -> In b res).
Proof.
  intro H.
  destruct (H (lit " ") (mkdb [Samples.nul_space] []))
    as (res & E & Hres); [discriminate|reflexivity|].
  assert (E' : fst (resolve_search_books (Some (lit " "))
                      (mkdb [Samples.nul_space] []))
               = Ok []) by (vm_compute; reflexivity).
  rewrite E' in E. inversion E; subst res.
  apply (Hres Samples.nul_space); [left; reflexivity|].
  left. apply contains_spec. vm_compute. reflexivity.
Qed.

(** C9, amended: a query that is not empty and holds only whitespace is
    not cut short: sanitization returns it unchanged and one SELECT with
    that very string reaches the database.  Unless the table has a row and
    the query is longer than 49998 bytes in UTF-8, the result holds
    exactly the rows in which the query occurs in the part before the
    first NUL of title, author, isbn_number or language; in the remaining
    case the call raises OperationalError. *)
Theorem whitespace_query_reaches_store (q : str) (d : db) :
  q <> [] ->
  forallb is_space q = true ->
  re_sub sanitize_re [] q = q
  /\ snd (resolve_search_books (Some q) d)
     = mkdb (table d) (log d ++ [SelectSearch q])
  /\ (like_raises q (table d) = false ->
      exists res : list Book,
        fst (resolve_search_books (Some q) d) = Ok res
        /\ forall b, In b res <->
                     In b (table d) /\ matches occurs_before_nul q b)
  /\ (like_raises q (table d) = true ->
      fst (resolve_search_books (Some q) d) = Raise OperationalError).
Proof.
  intros Hne Hsp.
  assert (Hs : re_sub sanitize_re [] q = q).
  { rewrite sanitize_is_filter. apply filter_all.
    rewrite forallb_forall in *. intros c Hc. unfold kept.
    rewrite (Hsp c Hc). apply orb_true_r. }
  assert (Hk : forallb kept q = true)
    by (rewrite <- Hs; apply sanitized_kept).
  split; [exact Hs|].
  rewrite resolve_search_books_query by (rewrite Hs; exact Hne).
  rewrite Hs, (@search_kept q d Hk).
  destruct (like_raises q (table d)); cbn [fst snd].
  - split; [reflexivity|]. split; [discriminate|reflexivity].
  - split; [reflexivity|]. split; [|discriminate].
    intros _. eexists. split; [reflexivity|].
    intro b. rewrite (@search_result q (table d) b (@kept_no_nul q Hk)).
    unfold matches, ilike, occurs_before_nul.
    rewrite !(isubstring_space q _ Hsp). reflexivity.
Qed.

(** A single space finds "Frank Herbert" and leaves "1984" by "Orwell"
    out. *)
Lemma whitespace_query_reaches_store_witness :
  exists res : list Book,
    fst (resolve_search_books (Some (lit " "))
           (mkdb [Samples.book_1984;
                  new_book (Samples.dune (lit "9780441013593") [])
                           (Datetime.mkdate 1965 8 1) Samples.db_1984] []))
    = Ok res
    /\ List.length res = 1%nat.
Proof.
  destruct (@whitespace_query_reaches_store (lit " ")
              (mkdb [Samples.book_1984;
                     new_book (Samples.dune (lit "9780441013593") [])
                              (Datetime.mkdate 1965 8 1) Samples.db_1984] []))
    as (_ & _ & H & _).
  - discriminate.
  - reflexivity.
  - destruct H as (res & E & _); [vm_compute; reflexivity|].
    exists res. split; [exact E|].
    vm_compute in E. inversion E. reflexivity.
Defined.

(** ** The importer *)

Section ImporterFacts.
Import AddBooks.
Local Open Scope Z_scope.

Variable endpoint : str -> list variables -> variables -> reply.
Variable read_csv : str -> option (list csv_row).




End ImporterFacts.

(** C8 on a CSV file of one row to which the server answers
    [{"errors": [..], "data": {"createBook": null}}]: the row was sent and
    not created, the success test calls [.get] on [None], and the process
    ends on the AttributeError with status 1 where C8 has 2.  A
    row whose pages cell is "abc" ends the process the same way (a
    ValueError from [int]) before any request. *)
Theorem failed_csv_row_exits_1 :
  AddBooks.exit_status
    (fst (AddBooks.main (Samples.always Samples.resolver_error)
                        (Samples.one_file (Samples.dune_row "412"))
                        Samples.csv_args [])) = 1%Z
  /\ List.length
       (snd (AddBooks.main (Samples.always Samples.resolver_error)
                           (Samples.one_file (Samples.dune_row "412"))
                           Samples.csv_args [])) = 1%nat
  /\ AddBooks.main (Samples.always (Samples.payload true))
                   (Samples.one_file (Samples.dune_row "abc"))
                   Samples.csv_args []
     = (AddBooks.Uncaught AddBooks.ValueError, [])
  /\ AddBooks.exit_status
       (fst (AddBooks.main (Samples.always (Samples.payload false))
                           (Samples.one_file (Samples.dune_row "412"))
                           Samples.csv_args [])) = 2%Z.
Proof.
  repeat split; vm_compute; reflexivity.
Qed.

(** * Further properties *)

(** ** [CreateBook.mutate]: payload, repetition, stored rows *)

(** The payload and the table that [mutate] leaves depend on the table
    alone, not on the log. *)
Lemma mutate_frame (a : Arguments) (d1 d2 : db) :
  table d1 = table d2 ->
  fst (mutate a d1) = fst (mutate a d2)
  /\ table (snd (mutate a d1)) = table (snd (mutate a d2)).
Proof.
  intro Ht.
  destruct (mutate_cases a d1)
    as [(Hv & E1) | [(Hv & Hex & E1) | [(Hv & Hex & Hb & pub & Hp & E1)
                                       | (Hv & Hex & Hb & E1)]]].
  - rewrite E1, (mutate_invalid a d2 Hv). simpl. auto.
  - rewrite Ht in Hex. rewrite E1, (mutate_duplicate a d2 Hv Hex). simpl. auto.
  - rewrite Ht in Hex. rewrite E1, (mutate_created a d2 Hv Hp Hex Hb). simpl.
    unfold new_book. rewrite Ht. auto.
  - rewrite Ht in Hex. rewrite E1, (mutate_unbindable a d2 Hv Hex Hb). simpl.
    auto.
Qed.

(** What a payload with a book tells about the call. *)
Lemma mutate_created_inv (a : Arguments) (d : db) (b : Book) :
  fst (mutate a d) = Ok (mkCreateBook (Some b) true []) ->
  fst (validate (arg_published_date a) (arg_isbn_number a)) = []
  /\ existsb (has_isbn (arg_isbn_number a)) (table d) = false
  /\ bindable a = true
  /\ Datetime.fromisoformat (arg_published_date a) = Some (published_date b)
  /\ b = new_book a (published_date b) d
  /\ snd (mutate a d)
     = mkdb (table d ++ [b])
            (log d ++ [SelectExists (arg_isbn_number a);
                       Insert (arg_isbn_number a)]).
Proof.
  destruct (mutate_cases a d)
    as [(Hv & E) | [(Hv & Hex & E) | [(Hv & Hex & Hb & pub & Hp & E)
                                     | (Hv & Hex & Hb & E)]]];
    rewrite E; cbn [fst snd]; intro H; try discriminate H.
  inversion H; subst b. cbn [new_book published_date]. auto 10.
Qed.

Lemma count_isbn_app (isbn : str) (t1 t2 : list Book) :
  count_isbn isbn (t1 ++ t2) = (count_isbn isbn t1 + count_isbn isbn t2)%nat.
Proof.
  unfold count_isbn. rewrite filter_app, length_app. reflexivity.
Qed.

Lemma count_isbn_free (isbn : str) (t : list Book) :
  existsb (has_isbn isbn) t = false -> count_isbn isbn t = 0%nat.
Proof.
  unfold count_isbn. induction t as [|b t IH]; simpl; [reflexivity|].
  intro H. apply orb_false_elim in H as [H1 H2]. rewrite H1. auto.
Qed.

Lemma duplicate_error_is_new :
  isbn_error <> duplicate_error /\ date_error <> duplicate_error.
Proof. split; vm_compute; discriminate. Qed.

Lemma validation_messages (published_date isbn_number : str) (e : str) :
  In e (fst (validate published_date isbn_number)) ->
  e = isbn_error \/ e = date_error.
Proof.
  rewrite validate_errors.
  destruct (re_match isbn_re isbn_number),
           (Datetime.fromisoformat published_date); simpl; intuition.
Qed.

(** X4: in every payload of [mutate] the three fields agree: [ok] is true
    exactly when [errors] is empty and exactly when a book is returned;
    the messages are among the three of the source, and the duplicate
    message never comes with another. *)
Theorem payload_consistent (a : Arguments) (d : db) (p : CreateBook) :
  fst (mutate a d) = Ok p ->
  (ok p = true <-> errors p = [])
  /\ (ok p = true <-> book p <> None)
  /\ (forall e, In e (errors p) ->
                e = isbn_error \/ e = date_error \/ e = duplicate_error)
  /\ (In duplicate_error (errors p) -> errors p = [duplicate_error]).
Proof.
  destruct (mutate_cases a d)
    as [(Hv & E) | [(Hv & Hex & E) | [(Hv & Hex & Hb & pub & Hp & E)
                                     | (Hv & Hex & Hb & E)]]];
    rewrite E; cbn [fst]; intro H; inversion H; subst p; simpl.
  - split; [split; [discriminate|congruence]|].
    split; [split; [discriminate|congruence]|].
    split.
    + intros e He. apply validation_messages in He. tauto.
    + intro He. apply validation_messages in He.
      destruct duplicate_error_is_new as [H1 H2].
      destruct He as [He|He]; symmetry in He; contradiction.
  - split; [split; discriminate|]. split; [split; [discriminate|congruence]|].
    split; [|reflexivity]. intros e [<-|[]]. auto.
  - split; [split; reflexivity|]. split; [split; [discriminate|reflexivity]|].
    split; [intros e []|intros []].
Qed.

(** The payload of a refused duplicate. *)
Lemma payload_consistent_witness :
  (ok (mkCreateBook None false [duplicate_error]) = true
   <-> errors (mkCreateBook None false [duplicate_error]) = [])
  /\ (ok (mkCreateBook None false [duplicate_error]) = true
      <-> book (mkCreateBook None false [duplicate_error]) <> None)
  /\ (forall e, In e (errors (mkCreateBook None false [duplicate_error])) ->
                e = isbn_error \/ e = date_error \/ e = duplicate_error)
  /\ (In duplicate_error (errors (mkCreateBook None false [duplicate_error]))
      -> errors (mkCreateBook None false [duplicate_error])
         = [duplicate_error]).
Proof.
  apply (@payload_consistent Samples.animal_farm Samples.db_1984
           (mkCreateBook None false [duplicate_error])).
  vm_compute. reflexivity.
Defined.

(** X5: once a call has created a Book, a request with the same
    isbn_number that passes validation, whatever its other fields, is
    answered with the duplicate message alone; the table stays as the
    first call left it and holds one row with that isbn_number. *)
Theorem second_creation_rejected (a a' : Arguments) (d : db) (b : Book) :
  fst (mutate a d) = Ok (mkCreateBook (Some b) true []) ->
  arg_isbn_number a' = arg_isbn_number a ->
  fst (validate (arg_published_date a') (arg_isbn_number a')) = [] ->
  fst (mutate a' (snd (mutate a d)))
  = Ok (mkCreateBook None false [duplicate_error])
  /\ table (snd (mutate a' (snd (mutate a d)))) = table d ++ [b]
  /\ count_isbn (arg_isbn_number a)
                (table (snd (mutate a' (snd (mutate a d))))) = 1%nat.
Proof.
  intros Hc Hsame Hv'.
  apply mutate_created_inv in Hc as (Hv & Hfree & _ & _ & Hb & E).
  rewrite E.
  assert (Hex : existsb (has_isbn (arg_isbn_number a'))
                        (table (mkdb (table d ++ [b])
                                     (log d ++ [SelectExists (arg_isbn_number a);
                                                Insert (arg_isbn_number a)])))
                = true).
  { cbn [table]. rewrite existsb_app. simpl. unfold has_isbn at 2.
    rewrite Hb. simpl.
    rewrite Hsame. rewrite (proj2 (str_eqb_eq _ _) eq_refl).
    apply orb_true_r. }
  rewrite (mutate_duplicate a' _ Hv' Hex). cbn [fst snd table].
  split; [reflexivity|]. split; [reflexivity|].
  rewrite count_isbn_app, (count_isbn_free _ _ Hfree).
  unfold count_isbn. simpl. unfold has_isbn. rewrite Hb. simpl.
  rewrite (proj2 (str_eqb_eq _ _) eq_refl). reflexivity.
Qed.

Lemma second_creation_rejected_witness :
  fst (mutate (mkArguments (lit "Dune Messiah") (lit "Frank Herbert")
                           (lit "1969-10-15") (lit "9780441013593")
                           256 None (lit "English"))
              (snd (mutate (Samples.dune (lit "9780441013593")
                                         (lit "1965-08-01"))
                           Samples.db_1984)))
  = Ok (mkCreateBook None false [duplicate_error]).
Proof.
  refine (proj1 (@second_creation_rejected
                   (Samples.dune (lit "9780441013593") (lit "1965-08-01"))
                   (mkArguments (lit "Dune Messiah") (lit "Frank Herbert")
                                (lit "1969-10-15") (lit "9780441013593")
                                256 None (lit "English"))
                   Samples.db_1984
                   (new_book (Samples.dune (lit "9780441013593")
                                           (lit "1965-08-01"))
                             (Datetime.mkdate 1965 8 1) Samples.db_1984)
                   _ _ _));
    vm_compute; reflexivity.
Defined.

(** X6: a rejected request is rejected again in the same words: if
    [mutate] answers [ok = false], calling it once more with the same
    arguments on the database it left gives the same payload, and the
    table is still the one before the first call. *)
Theorem rejection_repeats (a : Arguments) (d : db) (p : CreateBook) :
  fst (mutate a d) = Ok p ->
  ok p = false ->
  fst (mutate a (snd (mutate a d))) = Ok p
  /\ table (snd (mutate a (snd (mutate a d)))) = table d.
Proof.
  intros Hp Hok.
  assert (Ht : table (snd (mutate a d)) = table d).
  { destruct (mutate_cases a d)
      as [(Hv & E) | [(Hv & Hex & E) | [(Hv & Hex & Hb & pub & Hd & E)
                                       | (Hv & Hex & Hb & E)]]];
      rewrite E in *; simpl in *; try reflexivity.
    inversion Hp; subst p. discriminate. }
  destruct (mutate_frame a (snd (mutate a d)) d Ht) as [F1 F2].
  rewrite F1, F2. split; [exact Hp|exact Ht].
Qed.

Lemma rejection_repeats_witness :
  fst (mutate Samples.animal_farm
              (snd (mutate Samples.animal_farm Samples.db_1984)))
  = Ok (mkCreateBook None false [duplicate_error])
  /\ table (snd (mutate Samples.animal_farm
                        (snd (mutate Samples.animal_farm Samples.db_1984))))
     = [Samples.book_1984].
Proof.
  apply (@rejection_repeats Samples.animal_farm Samples.db_1984
           (mkCreateBook None false [duplicate_error]));
    vm_compute; reflexivity.
Defined.

(** X7: [mutate] only ever appends: the old rows stay in place, at most
    one row is added, and if every row of the table had an isbn_number
    that the ISBN check accepts and a published_date that is a calendar
    date (year 1..9999, month 1..12, a day of that month), so has every
    row afterwards. *)
Theorem stored_rows_valid (a : Arguments) (d : db) :
  Forall row_ok (table d) ->
  Forall row_ok (table (snd (mutate a d)))
  /\ exists new : list Book,
       table (snd (mutate a d)) = table d ++ new
       /\ (List.length new <= 1)%nat.
Proof.
  intro Hall.
  destruct (mutate_cases a d)
    as [(Hv & E) | [(Hv & Hex & E) | [(Hv & Hex & Hb & pub & Hp & E)
                                     | (Hv & Hex & Hb & E)]]];
    rewrite E; cbn [snd table].
  - split; [exact Hall|]. exists []. rewrite app_nil_r. auto.
  - split; [exact Hall|]. exists []. rewrite app_nil_r. auto.
  - split.
    + apply Forall_app. split; [exact Hall|].
      constructor; [|constructor]. unfold row_ok, new_book. simpl. split.
      * apply re_match_isbn. apply validate_passes in Hv. tauto.
      * apply (fromisoformat_valid _ Hp).
    + exists [new_book a pub d]. simpl. auto.
  - split; [exact Hall|]. exists []. rewrite app_nil_r. auto.
Qed.

Lemma stored_rows_valid_witness :
  Forall row_ok
         (table (snd (mutate (Samples.dune (lit "9780441013593")
                                           (lit "2021-W01-1"))
                             Samples.db_1984))).
Proof.
  apply (@stored_rows_valid (Samples.dune (lit "9780441013593")
                                          (lit "2021-W01-1"))
                            Samples.db_1984).
  constructor; [|constructor]. split; vm_compute; reflexivity.
Defined.

(** ** [Query.resolve_search_books]: what the result depends on *)

Lemma upper_idem (c : char) : upper (upper c) = upper c.
Proof.
  unfold upper, is_ascii_lower, in_range.
  destruct (N.leb_spec 0x61 c), (N.leb_spec c 0x7A); simpl;
    try reflexivity;
    destruct (N.leb_spec 0x61 (c - 32)%N), (N.leb_spec (c - 32)%N 0x7A);
    simpl;
    try reflexivity; try lia;
    destruct (N.leb_spec 0x61 c), (N.leb_spec c 0x7A); simpl;
    try reflexivity; lia.
Qed.

Lemma kept_upper (c : char) : kept (upper c) = kept c.
Proof.
  unfold upper, is_ascii_lower. destruct (in_range 0x61 0x7A c) eqn:E;
    [|reflexivity].
  unfold kept, is_ascii_lower. rewrite E. simpl.
  unfold in_range in E. apply andb_prop in E as [E1 E2].
  apply N.leb_le in E1, E2.
  assert (U : is_ascii_upper (c - 32)%N = true).
  { unfold is_ascii_upper, in_range. apply andb_true_intro.
    split; apply N.leb_le; lia. }
  rewrite U. rewrite orb_true_r. reflexivity.
Qed.

Lemma filter_kept_upper (q : str) :
  filter kept (map upper q) = map upper (filter kept q).
Proof.
  induction q as [|c q IH]; simpl; [reflexivity|].
  rewrite kept_upper. destruct (kept c); simpl; rewrite IH; reflexivity.
Qed.

Lemma map_upper_idem (q : str) : map upper (map upper q) = map upper q.
Proof.
  rewrite map_map. apply map_ext. exact upper_idem.
Qed.

Lemma search_Q_upper (q1 q2 : str) (b : Book) :
  has_nul q1 = false -> has_nul q2 = false ->
  map upper q1 = map upper q2 -> search_Q q1 b = search_Q q2 b.
Proof.
  intros H1 H2 H. unfold search_Q, icontains. rewrite H1, H2, H. reflexivity.
Qed.

(** Upper-casing keeps the length of the encoding. *)
Lemma utf8_char_upper (c : char) :
  option_map (@List.length N) (Datetime.utf8_char (upper c))
  = option_map (@List.length N) (Datetime.utf8_char c).
Proof.
  unfold upper, is_ascii_lower, in_range.
  destruct (N.leb_spec 0x61 c), (N.leb_spec c 0x7A); cbn [andb];
    try reflexivity.
  unfold Datetime.utf8_char.
  destruct (N.ltb_spec (c - 32) 0x80), (N.ltb_spec c 0x80);
    try reflexivity; lia.
Qed.

Lemma utf8_size_upper (q : str) : utf8_size (map upper q) = utf8_size q.
Proof.
  unfold utf8_size.
  assert (H : option_map (@List.length N) (Datetime.utf8 (map upper q))
              = option_map (@List.length N) (Datetime.utf8 q)).
  { induction q as [|c q IH]; [reflexivity|].
    cbn [map Datetime.utf8]. pose proof (utf8_char_upper c) as Hc.
    destruct (Datetime.utf8_char (upper c)), (Datetime.utf8_char c),
      (Datetime.utf8 (map upper q)), (Datetime.utf8 q);
      cbn [option_map] in *; try discriminate; try reflexivity.
    inversion Hc. inversion IH. rewrite !length_app. congruence. }
  destruct (Datetime.utf8 (map upper q)), (Datetime.utf8 q);
    cbn [option_map] in H; try discriminate; [|reflexivity].
  inversion H. congruence.
Qed.

Lemma like_raises_upper (q1 q2 : str) (t : list Book) :
  map upper q1 = map upper q2 -> like_raises q1 t = like_raises q2 t.
Proof.
  intro H. unfold like_raises.
  rewrite <- (utf8_size_upper q1), <- (utf8_size_upper q2), H. reflexivity.
Qed.

Lemma substring_trans (a b c : str) :
  substring a b -> substring b c -> substring a c.
Proof.
  intros (p1 & s1 & ->) (p2 & s2 & ->).
  exists (p2 ++ p1), (s1 ++ s2). rewrite <- !app_assoc. reflexivity.
Qed.

Lemma substring_map_upper (a b : str) :
  substring a b -> substring (map upper a) (map upper b).
Proof.
  intros (p & s & ->). exists (map upper p), (map upper s).
  rewrite !map_app. reflexivity.
Qed.

Lemma substring_refl (a : str) : substring a a.
Proof.
  exists [], []. rewrite app_nil_r. reflexivity.
Qed.

(** X8: a search never writes: whether it returns or raises, it leaves
    the table as it is and sends at most one statement, none of them an
    INSERT; a [mutate] that follows it gives the payload and the table it
    would have given without the search. *)
Theorem search_is_read_only (query : option str) (a : Arguments) (d : db) :
  table (snd (resolve_search_books query d)) = table d
  /\ (exists new, issued d (snd (resolve_search_books query d)) new
                  /\ filter is_write new = []
                  /\ (List.length new <= 1)%nat)
  /\ fst (mutate a (snd (resolve_search_books query d))) = fst (mutate a d)
  /\ table (snd (mutate a (snd (resolve_search_books query d))))
     = table (snd (mutate a d)).
Proof.
  assert (H : table (snd (resolve_search_books query d)) = table d
              /\ (exists new, issued d (snd (resolve_search_books query d)) new
                              /\ filter is_write new = []
                              /\ (List.length new <= 1)%nat)).
  { unfold issued.
    destruct (resolve_search_books_cases query d) as [E | (q & _ & _ & E)];
      rewrite E.
    - split; [reflexivity|]. exists []. rewrite app_nil_r. auto.
    - destruct (like_raises _ _); cbn [snd table log];
        (split; [reflexivity|]); eexists; (split; [reflexivity|]);
        simpl; auto. }
  destruct H as (Ht & Hnew).
  split; [exact Ht|]. split; [exact Hnew|].
  apply mutate_frame. exact Ht.
Qed.

(** X9: the search ignores the case of ASCII letters in the query: two
    queries that are equal once their letters a..z are upper-cased
    ("dune", "Dune", "DUNE") return the same list of rows. *)
Theorem search_ignores_query_case (q1 q2 : str) (d : db) :
  map upper q1 = map upper q2 ->
  fst (resolve_search_books (Some q1) d)
  = fst (resolve_search_books (Some q2) d).
Proof.
  intro H.
  assert (Hs : map upper (re_sub sanitize_re [] q1)
               = map upper (re_sub sanitize_re [] q2)).
  { rewrite !sanitize_is_filter, <- !filter_kept_upper, H. reflexivity. }
  pose proof (sanitized_kept q1) as K1. pose proof (sanitized_kept q2) as K2.
  destruct (re_sub sanitize_re [] q1) as [|c1 s1] eqn:E1;
    destruct (re_sub sanitize_re [] q2) as [|c2 s2] eqn:E2;
    try discriminate Hs.
  - rewrite (resolve_search_books_empty q1 d E1),
            (resolve_search_books_empty q2 d E2). reflexivity.
  - rewrite !resolve_search_books_query
      by (rewrite ?E1, ?E2; discriminate).
    rewrite E1, E2, (@search_kept _ d K1), (@search_kept _ d K2).
    rewrite (like_raises_upper _ _ (table d) Hs).
    destruct (like_raises (c2 :: s2) (table d)); [reflexivity|].
    cbn [fst]. f_equal. f_equal.
    apply filter_ext. intro b.
    apply search_Q_upper; [apply kept_no_nul; exact K1
                          |apply kept_no_nul; exact K2|exact Hs].
Qed.

Lemma search_ignores_query_case_witness :
  fst (resolve_search_books (Some (lit "dune")) Samples.db_1984)
  = fst (resolve_search_books (Some (lit "DuNe")) Samples.db_1984).
Proof.
  apply search_ignores_query_case. reflexivity.
Defined.

(** X10: the search sees a query only through its sanitized form: two
    queries that differ in characters outside letters, digits and
    whitespace ("O'Brien" and "OBrien") give the same result and send
    the same statement; a query and its sanitized form are one such
    pair. *)
Theorem search_ignores_punctuation (q1 q2 : str) (d : db) :
  re_sub sanitize_re [] q1 = re_sub sanitize_re [] q2 ->
  resolve_search_books (Some q1) d = resolve_search_books (Some q2) d
  /\ resolve_search_books (Some (re_sub sanitize_re [] q1)) d
     = resolve_search_books (Some q1) d.
Proof.
  assert (G : forall a b, re_sub sanitize_re [] a = re_sub sanitize_re [] b ->
                          resolve_search_books (Some a) d
                          = resolve_search_books (Some b) d).
  { intros a b H. destruct (re_sub sanitize_re [] a) as [|c s] eqn:E.
    - rewrite (resolve_search_books_empty a d E),
              (resolve_search_books_empty b d (eq_sym H)). reflexivity.
    - rewrite (resolve_search_books_query a d)
        by (rewrite E; discriminate).
      rewrite (resolve_search_books_query b d)
        by (rewrite <- H; discriminate).
      rewrite E, <- H. reflexivity. }
  intro H. split; [apply G; exact H|].
  apply G. rewrite !sanitize_is_filter. apply filter_idem.
Qed.

Lemma search_ignores_punctuation_witness :
  resolve_search_books (Some (lit "O'Brien; DROP")) Samples.db_1984
  = resolve_search_books (Some (lit "OBrien DROP")) Samples.db_1984.
Proof.
  assert (H : re_sub sanitize_re [] (lit "O'Brien; DROP")
              = re_sub sanitize_re [] (lit "OBrien DROP"))
    by (vm_compute; reflexivity).
  exact (proj1 (@search_ignores_punctuation (lit "O'Brien; DROP")
                  (lit "OBrien DROP") Samples.db_1984 H)).
Defined.

(** X11: shortening a query never loses a row: if the sanitized form of
    [q'] is not empty and occurs in the sanitized form of [q], every row
    returned for [q] is returned for [q']. *)
Theorem shorter_query_finds_more (q q' : str) (d : db)
        (res res' : list Book) :
  re_sub sanitize_re [] q' <> [] ->
  substring (re_sub sanitize_re [] q') (re_sub sanitize_re [] q) ->
  fst (resolve_search_books (Some q) d) = Ok res ->
  fst (resolve_search_books (Some q') d) = Ok res' ->
  incl res res'.
Proof.
  intros Hne Hsub Hres Hres'.
  pose proof (sanitized_kept q) as K. pose proof (sanitized_kept q') as K'.
  rewrite (resolve_search_books_query q' d Hne), (@search_kept _ d K')
    in Hres'.
  destruct (like_raises _ _) in Hres'; [discriminate|].
  cbn [fst] in Hres'. inversion Hres'; subst res'.
  destruct (re_sub sanitize_re [] q) as [|c s] eqn:E.
  - rewrite (resolve_search_books_empty q d E) in Hres.
    inversion Hres. intros b [].
  - rewrite resolve_search_books_query in Hres by (rewrite E; discriminate).
    rewrite E, (@search_kept _ d K) in Hres.
    destruct (like_raises _ _) in Hres; [discriminate|].
    cbn [fst] in Hres. inversion Hres; subst res. intros b Hb.
    apply (@search_result _ (table d) b (@kept_no_nul _ K)) in Hb
      as [Hin Hm].
    apply (@search_result _ (table d) b (@kept_no_nul _ K')).
    split; [exact Hin|].
    apply substring_map_upper in Hsub.
    unfold matches, ilike, isubstring in *.
    destruct Hm as [Hm|[Hm|[Hm|Hm]]];
      [left|right; left|right; right; left|right; right; right];
      exact (substring_trans Hsub Hm).
Qed.

Lemma shorter_query_finds_more_witness :
  incl (nodup Book_eq_dec
              (filter (search_Q (lit "Orwell")) (table Samples.db_1984)))
       (nodup Book_eq_dec
              (filter (search_Q (lit "well")) (table Samples.db_1984))).
Proof.
  apply (@shorter_query_finds_more (lit "Orwell") (lit "well")
           Samples.db_1984).
  - vm_compute. discriminate.
  - exists (lit "Or"), []. vm_compute. reflexivity.
  - vm_compute. reflexivity.
  - vm_compute. reflexivity.
Defined.

(** ** Creation followed by a search *)

Lemma search_grows (sq : str) (t : list Book) (b : Book) :
  incl (nodup Book_eq_dec (filter (search_Q sq) t))
       (nodup Book_eq_dec (filter (search_Q sq) (t ++ [b]))).
Proof.
  intros x Hx. apply nodup_In. apply nodup_In in Hx.
  apply filter_In in Hx as [Hin Hq]. apply filter_In.
  split; [apply in_or_app; left; exact Hin|exact Hq].
Qed.

Lemma search_finds_last (sq : str) (t : list Book) (b : Book) :
  has_nul sq = false ->
  matches ilike sq b ->
  In b (nodup Book_eq_dec (filter (search_Q sq) (t ++ [b]))).
Proof.
  intros Hn Hm. apply nodup_In, filter_In.
  split; [apply in_or_app; right; left; reflexivity|].
  apply (@search_Q_spec sq b Hn). exact Hm.
Qed.

Lemma has_rows_app (t : list Book) (b : Book) : has_rows (t ++ [b]) = true.
Proof.
  destruct t; reflexivity.
Qed.

(** A sanitized query of at most 49998 bytes over the table that a
    creation left. *)
Lemma search_after_creation (sq : str) (t : list Book) (b : Book)
      (l : list statement) :
  forallb kept sq = true ->
  (utf8_size sq <= 49998)%N ->
  fst (search sq (mkdb (t ++ [b]) l))
  = Ok (nodup Book_eq_dec (filter (search_Q sq) (t ++ [b]))).
Proof.
  intros K Hsize. rewrite (@search_kept sq _ K). unfold like_raises.
  cbn [table]. rewrite has_rows_app.
  destruct (N.ltb_spec 49998 (utf8_size sq)); [lia|reflexivity].
Qed.

(** X12: a Book that has just been created is found: after a call that
    created the row [b], every query whose sanitized form is not empty, is
    at most 49998 bytes long in UTF-8 and occurs, case ignored, in what
    LIKE reads (the text before the first NUL) of the title, author,
    isbn_number or language of the request returns a list that holds [b],
    and every row the query returned before the creation is still
    returned. *)
Theorem created_book_is_found (a : Arguments) (d : db) (q : str) (b : Book) :
  fst (mutate a d) = Ok (mkCreateBook (Some b) true []) ->
  re_sub sanitize_re [] q <> [] ->
  (utf8_size (re_sub sanitize_re [] q) <= 49998)%N ->
  (ilike (re_sub sanitize_re [] q) (arg_title a)
   \/ ilike (re_sub sanitize_re [] q) (arg_author a)
   \/ ilike (re_sub sanitize_re [] q) (arg_isbn_number a)
   \/ ilike (re_sub sanitize_re [] q) (arg_language a)) ->
  exists res : list Book,
    fst (resolve_search_books (Some q) (snd (mutate a d))) = Ok res
    /\ In b res
    /\ forall res0, fst (resolve_search_books (Some q) d) = Ok res0 ->
                    incl res0 res.
Proof.
  intros Hc Hne Hsize Hm.
  pose proof (sanitized_kept q) as K.
  apply mutate_created_inv in Hc as (_ & _ & _ & _ & Hb & E).
  rewrite E, (resolve_search_books_query q _ Hne).
  rewrite (@search_after_creation _ (table d) b _ K Hsize).
  eexists. split; [reflexivity|]. split.
  - apply search_finds_last; [apply kept_no_nul; exact K|].
    rewrite Hb. exact Hm.
  - intros res0 H0.
    rewrite (resolve_search_books_query q _ Hne), (@search_kept _ d K) in H0.
    destruct (like_raises _ _) in H0; [discriminate|].
    inversion H0; subst res0. apply search_grows.
Qed.

Lemma created_book_is_found_witness :
  exists res : list Book,
    fst (resolve_search_books
           (Some (lit "herbert!"))
           (snd (mutate (Samples.dune (lit "9780441013593")
                                      (lit "1965-08-01"))
                        Samples.db_1984)))
    = Ok res
    /\ In (new_book (Samples.dune (lit "9780441013593") (lit "1965-08-01"))
                    (Datetime.mkdate 1965 8 1) Samples.db_1984) res.
Proof.
  destruct (@created_book_is_found
              (Samples.dune (lit "9780441013593") (lit "1965-08-01"))
              Samples.db_1984 (lit "herbert!")
              (new_book (Samples.dune (lit "9780441013593")
                                      (lit "1965-08-01"))
                        (Datetime.mkdate 1965 8 1) Samples.db_1984))
    as (res & H2 & H3 & _).
  - vm_compute. reflexivity.
  - vm_compute. discriminate.
  - vm_compute. discriminate.
  - right. left. exists (lit "FRANK "), []. vm_compute. reflexivity.
  - exists res. auto.
Defined.

Lemma ascii_digit_kept (s : str) :
  forallb is_ascii_digit s = true -> re_sub sanitize_re [] s = s.
Proof.
  intro H. rewrite sanitize_is_filter. apply filter_all.
  rewrite forallb_forall in *. intros c Hc. unfold kept.
  rewrite (H c Hc). rewrite orb_true_r. reflexivity.
Qed.

Lemma isbn_ok_nonempty (s : str) : isbn_ok s = true -> s <> [].
Proof.
  intros H ->. vm_compute in H. discriminate.
Qed.

Lemma isbn_ok_length (s : str) :
  isbn_ok s = true -> (List.length s <= 14)%nat.
Proof.
  intro H. apply isbn_ok_shape in H as (ds & _ & Hl & [-> | ->]);
    rewrite ?length_app; cbn [List.length]; lia.
Qed.

Lemma ascii_digit_utf8 (s : str) :
  forallb is_ascii_digit s = true -> Datetime.utf8 s = Some s.
Proof.
  induction s as [|c s IH]; [reflexivity|].
  cbn [forallb]. rewrite andb_true_iff. intros [Hc Hs].
  unfold is_ascii_digit, in_range in Hc. apply andb_prop in Hc as [_ Hc].
  apply N.leb_le in Hc.
  rewrite utf8_cons_ascii by lia. rewrite (IH Hs). reflexivity.
Qed.

Lemma c_string_no_nul (s : str) : has_nul s = false -> c_string s = s.
Proof.
  induction s as [|c s IH]; [reflexivity|].
  cbn [has_nul existsb c_string]. fold (has_nul s).
  destruct (c =? 0)%N; [discriminate|]. cbn [orb]. intro H.
  rewrite (IH H). reflexivity.
Qed.

(** X13: a Book created with an isbn_number of ASCII digits is found by
    searching for that isbn_number.  (The ISBN check also lets digits of
    other scripts through; sanitization removes those from a query.) *)
Theorem created_book_found_by_isbn (a : Arguments) (d : db) (b : Book) :
  fst (mutate a d) = Ok (mkCreateBook (Some b) true []) ->
  forallb is_ascii_digit (arg_isbn_number a) = true ->
  exists res : list Book,
    fst (resolve_search_books (Some (arg_isbn_number a))
                              (snd (mutate a d))) = Ok res
    /\ In b res.
Proof.
  intros Hc Hdig.
  apply mutate_created_inv in Hc as (Hv & _ & _ & _ & Hb & E).
  pose proof (proj1 (validate_passes _ _) Hv) as [Hi _].
  apply re_match_isbn in Hi.
  pose proof (ascii_digit_kept _ Hdig) as Hs.
  pose proof (sanitized_kept (arg_isbn_number a)) as K. rewrite Hs in K.
  assert (Hne : re_sub sanitize_re [] (arg_isbn_number a) <> [])
    by (rewrite Hs; apply isbn_ok_nonempty; exact Hi).
  assert (Hsize : (utf8_size (arg_isbn_number a) <= 49998)%N).
  { unfold utf8_size. rewrite (ascii_digit_utf8 _ Hdig).
    apply isbn_ok_length in Hi.
    assert (Hl : (@List.length N (arg_isbn_number a) <= 14)%nat)
      by exact Hi.
    lia. }
  rewrite E, (resolve_search_books_query _ _ Hne), Hs.
  rewrite (@search_after_creation _ (table d) b _ K Hsize).
  eexists. split; [reflexivity|].
  apply search_finds_last; [apply kept_no_nul; exact K|].
  right. right. left. rewrite Hb. unfold ilike, isubstring, new_book.
  cbn [isbn_number]. rewrite (@c_string_no_nul _ (@kept_no_nul _ K)).
  apply substring_refl.
Qed.

Lemma created_book_found_by_isbn_witness :
  exists res : list Book,
    fst (resolve_search_books
           (Some (lit "9780441013593"))
           (snd (mutate (Samples.dune (lit "9780441013593")
                                      (lit "1965-08-01"))
                        Samples.db_1984)))
    = Ok res
    /\ In (new_book (Samples.dune (lit "9780441013593") (lit "1965-08-01"))
                    (Datetime.mkdate 1965 8 1) Samples.db_1984) res.
Proof.
  exact (@created_book_found_by_isbn
           (Samples.dune (lit "9780441013593") (lit "1965-08-01"))
           Samples.db_1984
           (new_book (Samples.dune (lit "9780441013593") (lit "1965-08-01"))
                     (Datetime.mkdate 1965 8 1) Samples.db_1984)
           ltac:(vm_compute; reflexivity) ltac:(vm_compute; reflexivity)).
Defined.

(** ** The importer: requests, replies and rows *)

Section ImporterProperties.
Import AddBooks.
Local Open Scope Z_scope.

Variable endpoint : str -> list variables -> variables -> reply.
Variable read_csv : str -> option (list csv_row).

Lemma row_variables_pages (row : csv_row) :
  match row_variables row with
  | Ok v => exists z, row_pages row = Ok z /\ v_pages v = Some z
  | Raise e => row_pages row = Raise e
  end.
Proof.
  unfold row_variables. destruct (row_pages row) as [z|e]; [|reflexivity].
  exists z. split; reflexivity.
Qed.

(** A reply that is no JSON document is a row that was not created. *)
Lemma transport_failure_not_created (url : str) (v : variables) (n : sent) :
  transport_failure (endpoint url n v) = true ->
  created (fst (post_book endpoint url v n)) = Ok false.
Proof.
  unfold post_book. cbn [fst].
  destruct (endpoint url n v) as [e|text [j|]]; simpl; try discriminate;
    intros _; vm_compute; reflexivity.
Qed.

Lemma import_rows_transport (url : str) (rows : list csv_row) :
  (forall before v, transport_failure (endpoint url before v) = true) ->
  (forall row, In row rows -> exists z, row_pages row = Ok z) ->
  forall (failures total : Z) (n : sent),
  exists n',
    import_rows endpoint url rows failures total n
    = (Ok (failures + Z.of_nat (List.length rows),
           total + Z.of_nat (List.length rows)), n')
    /\ List.length n' = (List.length n + List.length rows)%nat.
Proof.
  intros Hnet. induction rows as [|row rest IH]; intros Hpages failures total n.
  - exists n. simpl. rewrite !Z.add_0_r, Nat.add_0_r. auto.
  - cbn [import_rows]. unfold import_row.
    destruct (Hpages row (or_introl eq_refl)) as (z & Hz).
    pose proof (row_variables_pages row) as Hrv.
    destruct (row_variables row) as [v|e];
      [|rewrite Hz in Hrv; discriminate].
    pose proof (transport_failure_not_created url v n (Hnet n v)) as Hc.
    destruct (post_book endpoint url v n) as [resp n1] eqn:Hpost.
    cbn [fst] in Hc. rewrite Hc.
    assert (Hn1 : n1 = n ++ [v])
      by (unfold post_book in Hpost; inversion Hpost; reflexivity).
    destruct (IH (fun r Hr => Hpages r (or_intror Hr))
                 (failures + 1) (total + 1) n1) as (n' & E & L).
    exists n'. rewrite E. split.
    + do 2 f_equal. f_equal; cbn [List.length]; lia.
    + rewrite L, Hn1, length_app. cbn [List.length]. lia.
Qed.

(** X15: a failing transport does not stop a CSV import: if every
    request raises in [requests.post] or gets a body that is no JSON, and
    every pages cell reads as an integer (or is empty), then every row
    of the file is sent, each counts as a failure, and the exit status is
    2 (0 for a file without rows). *)
Theorem transport_failures_are_counted (a : args) (path : str)
        (rows : list csv_row) (n : sent) :
  csv_mode a = true ->
  csv a = Some path ->
  read_csv path = Some rows ->
  (forall before v, transport_failure (endpoint (url a) before v) = true) ->
  (forall row, In row rows -> exists z, row_pages row = Ok z) ->
  fst (main endpoint read_csv a n)
  = Exit (match rows with [] => 0 | _ :: _ => 2 end)
  /\ List.length (snd (main endpoint read_csv a n))
     = (List.length n + List.length rows)%nat.
Proof.
  unfold csv_mode. intros Hc Hp Hr Hnet Hpages.
  unfold main, import_csv. rewrite Hp in *.
  destruct path as [|c p]; [discriminate|]. rewrite Hr.
  destruct (import_rows_transport (url a) rows Hnet Hpages 0 0 n)
    as (n' & E & L).
  rewrite E. cbn [fst snd to_outcome]. split; [|exact L].
  destruct rows as [|row rest]; [reflexivity|].
  replace (0 + Z.of_nat (List.length (row :: rest)) =? 0) with false;
    [reflexivity|].
  symmetry. apply Z.eqb_neq. cbn [List.length]. lia.
Qed.

Lemma import_rows_sent (url : str) (rows : list csv_row) :
  forall (failures total : Z) (n : sent),
  exists vs : list variables,
    snd (import_rows endpoint url rows failures total n) = n ++ vs
    /\ (List.length vs <= List.length rows)%nat
    /\ Forall2 (fun row v => row_variables row = Ok v)
               (firstn (List.length vs) rows) vs
    /\ (existsb raised (row_results endpoint url rows n) = false ->
        List.length vs = List.length rows).
Proof.
  induction rows as [|row rest IH]; intros failures total n.
  - exists []. simpl. split; [symmetry; apply app_nil_r|]. repeat split; auto.
  - cbn [import_rows row_results]. unfold import_row.
    destruct (row_variables row) as [v|e] eqn:Hv.
    + unfold post_book. cbn [fst snd].
      set (resp := match endpoint url n v with
                   | NetworkError e => JDict [(lit "network_error", JStr e)]
                   | Response _ (Some j) => j
                   | Response text None =>
                       JDict [(lit "non_json_response", JStr text)]
                   end).
      destruct (created resp) as [[|]|e].
      * destruct (IH failures (total + 1) (n ++ [v]))
          as (vs & E & L & F & R).
        exists (v :: vs). rewrite E, <- app_assoc. cbn [List.length firstn].
        split; [reflexivity|]. split; [lia|]. split; [constructor; assumption|].
        cbn [existsb raised orb]. intro H. rewrite (R H). reflexivity.
      * destruct (IH (failures + 1) (total + 1) (n ++ [v]))
          as (vs & E & L & F & R).
        exists (v :: vs). rewrite E, <- app_assoc. cbn [List.length firstn].
        split; [reflexivity|]. split; [lia|]. split; [constructor; assumption|].
        cbn [existsb raised orb]. intro H. rewrite (R H). reflexivity.
      * exists [v]. cbn [snd List.length firstn].
        split; [reflexivity|]. split; [lia|].
        split; [constructor; [assumption|constructor]|].
        cbn [existsb raised orb]. discriminate.
    + exists []. cbn [snd List.length firstn].
      split; [symmetry; apply app_nil_r|]. split; [lia|].
      split; [constructor|].
      cbn [existsb raised orb]. discriminate.
Qed.

(** X16: a CSV import sends one request per row, in the order of the
    file, and stops at the first row that raises: the requests added are
    the variables of a leading part of the rows, and of all the rows when
    no row raises. *)
Theorem requests_follow_rows (a : args) (path : str) (rows : list csv_row)
        (n : sent) :
  csv_mode a = true ->
  csv a = Some path ->
  read_csv path = Some rows ->
  exists vs : list variables,
    snd (main endpoint read_csv a n) = n ++ vs
    /\ (List.length vs <= List.length rows)%nat
    /\ Forall2 (fun row v => row_variables row = Ok v)
               (firstn (List.length vs) rows) vs
    /\ (existsb raised (row_results endpoint (url a) rows n) = false ->
        List.length vs = List.length rows).
Proof.
  unfold csv_mode. intros Hc Hp Hr. unfold main, import_csv.
  rewrite Hp in *. destruct path as [|c p]; [discriminate|]. rewrite Hr.
  destruct (import_rows_sent (url a) rows 0 0 n) as (vs & E & H).
  exists vs. split; [|exact H].
  destruct (import_rows endpoint (url a) rows 0 0 n) as [[[f t]|e] n'];
    cbn [snd] in *; exact E.
Qed.

Ltac row_cases row :=
  cbn [v_language v_coverImage v_pages v_title v_isbnNumber];
  repeat match goal with
         | |- _ /\ _ => split
         end;
  repeat match goal with
         | |- context [row_get row ?key] =>
             destruct (row_get row key) as [[|? ?]|]
         end;
  cbn [or_else falsy];
  try discriminate; try reflexivity;
  try (intros; discriminate);
  try (eexists; split; [reflexivity|discriminate]).

(** X17: what the importer fills in for a CSV row.  The language sent
    is never empty: it is "Unknown" when the cells language and Language
    are both missing or empty.  The cover image sent is never the empty
    string: it is null when cover_image and coverImage are both missing
    or empty.  A missing or empty pages cell is sent as 0.  Of the two
    spellings of a header the lower-case one wins when its cell is not
    empty, and the only exception a row can raise before it is sent is
    the ValueError of a pages cell that is no integer. *)
Theorem row_defaults (row : csv_row) :
  match row_variables row with
  | Ok v =>
      (exists l, v_language v = Some l /\ l <> [])
      /\ (falsy (row_get row "language") = true ->
          falsy (row_get row "Language") = true ->
          v_language v = Some (lit "Unknown"))
      /\ v_coverImage v <> Some []
      /\ (falsy (row_get row "cover_image") = true ->
          falsy (row_get row "coverImage") = true ->
          v_coverImage v = None)
      /\ (falsy (row_get row "pages") = true -> v_pages v = Some 0)
      /\ (falsy (row_get row "title") = false ->
          v_title v = row_get row "title")
      /\ (falsy (row_get row "isbn_number") = false ->
          v_isbnNumber v = row_get row "isbn_number")
      /\ (falsy (row_get row "isbn_number") = true ->
          falsy (row_get row "isbn") = true ->
          v_isbnNumber v = row_get row "ISBN")
  | Raise e => e = ValueError /\ falsy (row_get row "pages") = false
  end.
Proof.
  unfold row_variables, row_pages.
  destruct (row_get row "pages") as [[|c s]|]; cbn [falsy];
    [row_cases row| |row_cases row].
  destruct (int_of_str (c :: s)); [row_cases row|split; reflexivity].
Qed.

End ImporterProperties.

(** Two rows over a dead connection: both are sent, the status is 2. *)
Lemma transport_failures_are_counted_witness :
  fst (AddBooks.main
         (fun _ _ _ => AddBooks.NetworkError (lit "Connection refused"))
         (fun _ => Some [Samples.dune_row "412"; Samples.dune_row ""])
         Samples.csv_args [])
  = AddBooks.Exit 2
  /\ List.length
       (snd (AddBooks.main
               (fun _ _ _ => AddBooks.NetworkError (lit "Connection refused"))
               (fun _ => Some [Samples.dune_row "412"; Samples.dune_row ""])
               Samples.csv_args []))
     = 2%nat.
Proof.
  apply (@transport_failures_are_counted
           (fun _ _ _ => AddBooks.NetworkError (lit "Connection refused"))
           (fun _ => Some [Samples.dune_row "412"; Samples.dune_row ""])
           Samples.csv_args (lit "books.csv")
           [Samples.dune_row "412"; Samples.dune_row ""] []).
  - reflexivity.
  - reflexivity.
  - reflexivity.
  - reflexivity.
  - intros row [<-|[<-|[]]]; eexists; vm_compute; reflexivity.
Defined.

Lemma requests_follow_rows_witness :
  exists vs : list AddBooks.variables,
    snd (AddBooks.main (Samples.always (Samples.payload false))
                       (Samples.one_file (Samples.dune_row "412"))
                       Samples.csv_args [])
    = [] ++ vs
    /\ (List.length vs <= 1)%nat.
Proof.
  destruct (@requests_follow_rows
              (Samples.always (Samples.payload false))
              (Samples.one_file (Samples.dune_row "412"))
              Samples.csv_args (lit "books.csv")
              [Samples.dune_row "412"] [])
    as (vs & E & L & _); try reflexivity.
  exists vs. split; assumption.
Defined.

(** ** The pages cell of a CSV row *)

Section PagesCell.
Import AddBooks.
Local Open Scope Z_scope.

Variable endpoint : str -> list variables -> variables -> reply.

Lemma ascii_digit_facts (c : char) :
  is_ascii_digit c = true ->
  (c <? 128)%N = true /\ Py_ISSPACE c = false /\ (c =? 0x2B)%N = false
  /\ (c =? 0x2D)%N = false /\ (c =? underscore)%N = false.
Proof.
  unfold is_ascii_digit, Py_ISSPACE, in_range, underscore.
  rewrite andb_true_iff, !N.leb_le. intros [H1 H2].
  repeat split;
    rewrite ?orb_false_iff, ?andb_false_iff, ?N.ltb_lt, ?N.leb_gt, ?N.eqb_neq;
    lia.
Qed.

Lemma scan_all_digits (ds : str) :
  forallb is_ascii_digit ds = true ->
  forall (prev : char) (acc : Z) (digits : nat),
    (ds = [] -> (prev =? underscore)%N = false) ->
    scan_digits ds prev acc digits
    = Some ([], fold_left (fun a c => a * 10 + Z.of_N (c - 0x30)) ds acc,
            (digits + List.length ds)%nat).
Proof.
  induction ds as [|c t IH]; intros Hd prev acc digits Hprev.
  - simpl. rewrite (Hprev eq_refl), Nat.add_0_r. reflexivity.
  - simpl in Hd. apply andb_prop in Hd as [Hc Ht].
    cbn [scan_digits fold_left List.length]. rewrite Hc.
    rewrite (IH Ht).
    + rewrite Nat.add_succ_r. reflexivity.
    + intros _. apply (ascii_digit_facts c Hc).
Qed.

(** X18: a pages cell written with ASCII digits only (between 1 and 4300
    of them, leading zeros allowed) is read as the number it writes, and
    the row raises nothing before it is sent. *)
Theorem pages_digits_are_read (row : csv_row) (ds : str) :
  row_get row "pages" = Some ds ->
  ds <> [] ->
  forallb is_ascii_digit ds = true ->
  (List.length ds <= 4300)%nat ->
  row_pages row = Ok (decimal_value ds)
  /\ exists v, row_variables row = Ok v
               /\ v_pages v = Some (decimal_value ds).
Proof.
  intros Hcell Hne Hdig Hlen.
  assert (Hint : int_of_str ds = Some (decimal_value ds)).
  { unfold int_of_str.
    assert (Hascii : forallb (fun c => (c <? 128)%N) ds = true).
    { rewrite forallb_forall in *. intros c Hc.
      apply (ascii_digit_facts c (Hdig c Hc)). }
    rewrite Hascii. destruct ds as [|c t]; [congruence|].
    pose proof Hdig as Hdig'. simpl in Hdig'.
    apply andb_prop in Hdig' as [Hc _].
    destruct (ascii_digit_facts c Hc) as (_ & Hs & Hplus & Hminus & Hus).
    cbn [skip_spaces]. rewrite Hs, Hplus, Hminus. cbn [hd]. rewrite Hus.
    rewrite (@scan_all_digits (c :: t) Hdig) by discriminate.
    cbn [Nat.add]. cbn [List.length Nat.eqb].
    replace (Nat.ltb max_str_digits (S (List.length t))) with false
      by (symmetry; apply Nat.ltb_ge; unfold max_str_digits;
          cbn [List.length] in Hlen; exact Hlen).
    reflexivity. }
  assert (Hp : row_pages row = Ok (decimal_value ds)).
  { unfold row_pages. rewrite Hcell. destruct ds as [|c t]; [congruence|].
    rewrite Hint. reflexivity. }
  split; [exact Hp|]. unfold row_variables. rewrite Hp.
  eexists. split; reflexivity.
Qed.

Lemma skip_spaces_keeps (c : char) (s : str) :
  number_char c = false -> In c s -> In c (skip_spaces s).
Proof.
  intros Hc. induction s as [|x s IH]; [intros []|].
  cbn [skip_spaces]. destruct (Py_ISSPACE x) eqn:E; [|auto].
  intros [->|H]; [|auto].
  unfold number_char in Hc. rewrite E in Hc.
  rewrite ?orb_true_r in Hc. discriminate.
Qed.

Lemma scan_digits_keeps (c : char) (s : str) :
  number_char c = false -> In c s ->
  forall prev acc digits,
    match scan_digits s prev acc digits with
    | Some (rest, _, _) => In c rest
    | None => True
    end.
Proof.
  intro Hc. induction s as [|x s IH]; [intros []|].
  intros Hin prev acc digits. cbn [scan_digits].
  assert (Hx : (is_ascii_digit x = true \/ (x =? underscore)%N = true) ->
               In c s).
  { intros Hx. destruct Hin as [->|H]; [|exact H].
    unfold number_char in Hc. destruct Hx as [Hx|Hx]; rewrite Hx in Hc;
      rewrite ?orb_true_r in Hc; discriminate. }
  destruct (is_ascii_digit x) eqn:E1; [apply IH; auto|].
  destruct (x =? underscore)%N eqn:E2.
  - destruct (prev =? underscore)%N; [exact I|apply IH; auto].
  - destruct (prev =? underscore)%N; [exact I|exact Hin].
Qed.

Lemma to_ascii_keeps (c : char) :
  (c < 128)%N -> number_char c = false ->
  number_char (to_ascii c) = false.
Proof.
  intros Hlt Hc. unfold to_ascii.
  destruct (N.ltb_spec c 127); [exact Hc|].
  assert (c = 127%N) by lia. subst c. reflexivity.
Qed.

Lemma int_of_str_rejects (s : str) (c : char) :
  In c s -> (c < 128)%N -> number_char c = false -> int_of_str s = None.
Proof.
  intros Hin Hlt Hc. unfold int_of_str.
  set (buffer := if forallb (fun c => (c <? 128)%N) s then s
                 else map to_ascii s).
  assert (Hb : exists c', In c' buffer /\ number_char c' = false).
  { unfold buffer. destruct (forallb (fun c => (c <? 128)%N) s).
    - exists c. auto.
    - exists (to_ascii c). split; [apply in_map; exact Hin|].
      apply to_ascii_keeps; assumption. }
  destruct Hb as (c' & Hin' & Hc'). clearbody buffer.
  pose proof (skip_spaces_keeps c' buffer Hc' Hin') as Hp.
  destruct (skip_spaces buffer) as [|x p] eqn:Ep; [destruct Hp|].
  assert (Hsign : forall p' : str, In c' p' ->
            (if (hd 0%N p' =? underscore)%N then None
             else match scan_digits p' 0%N 0 0 with
                  | None => None
                  | Some (rest, z, digits) =>
                      if Nat.eqb digits 0 then None
                      else if Nat.ltb max_str_digits digits then None
                      else match skip_spaces rest with
                           | [] => Some z
                           | _ :: _ => None
                           end
                  end) = (None : option Z)
            /\ (if (hd 0%N p' =? underscore)%N then None
                else match scan_digits p' 0%N 0 0 with
                     | None => None
                     | Some (rest, z, digits) =>
                         if Nat.eqb digits 0 then None
                         else if Nat.ltb max_str_digits digits then None
                         else match skip_spaces rest with
                              | [] => Some (- z)
                              | _ :: _ => None
                              end
                     end) = (None : option Z)).
  { intros p' Hp'. destruct (hd 0%N p' =? underscore)%N; [auto|].
    pose proof (scan_digits_keeps c' p' Hc' Hp' 0%N 0 0%nat) as Hs.
    destruct (scan_digits p' 0%N 0 0) as [[[rest z] digits]|]; [|auto].
    destruct (Nat.eqb digits 0); [auto|].
    destruct (Nat.ltb max_str_digits digits); [auto|].
    pose proof (skip_spaces_keeps c' rest Hc' Hs) as Hr.
    destruct (skip_spaces rest); [destruct Hr|auto]. }
  assert (Hx : ((x =? 0x2B)%N = true \/ (x =? 0x2D)%N = true) -> In c' p).
  { intros Hx. destruct Hp as [->|H]; [|exact H].
    unfold number_char in Hc'. destruct Hx as [Hx|Hx]; rewrite Hx in Hc';
      rewrite ?orb_true_r in Hc'; discriminate. }
  destruct (x =? 0x2B)%N eqn:E1.
  - apply (Hsign p). auto.
  - destruct (x =? 0x2D)%N eqn:E2.
    + apply (Hsign p). auto.
    + apply (Hsign (x :: p)). exact Hp.
Qed.

(** X19: a pages cell that holds an ASCII character other than a digit,
    an underscore, a sign or a blank (a letter, a decimal point, a comma)
    makes [int] raise ValueError: the row is not sent and the import ends
    there. *)
Theorem pages_not_a_number_raises (url : str) (row : csv_row) (cell : str)
        (c : char) (rest : list csv_row) (failures total : Z) (n : sent) :
  row_get row "pages" = Some cell ->
  In c cell ->
  (c < 128)%N ->
  number_char c = false ->
  row_pages row = Raise ValueError
  /\ import_row endpoint url row n = (Raise ValueError, n)
  /\ import_rows endpoint url (row :: rest) failures total n
     = (Raise ValueError, n).
Proof.
  intros Hcell Hin Hlt Hc.
  assert (Hp : row_pages row = Raise ValueError).
  { unfold row_pages. rewrite Hcell.
    destruct cell as [|x t]; [destruct Hin|].
    rewrite (@int_of_str_rejects (x :: t) c Hin Hlt Hc). reflexivity. }
  assert (Hr : import_row endpoint url row n = (Raise ValueError, n)).
  { unfold import_row, row_variables. rewrite Hp. reflexivity. }
  split; [exact Hp|]. split; [exact Hr|].
  cbn [import_rows]. rewrite Hr. reflexivity.
Qed.

End PagesCell.

Lemma pages_digits_are_read_witness :
  AddBooks.row_pages (Samples.dune_row "0412") = AddBooks.Ok 412%Z.
Proof.
  apply (proj1 (@pages_digits_are_read (Samples.dune_row "0412")
                  (lit "0412") eq_refl ltac:(discriminate) eq_refl
                  ltac:(vm_compute; lia))).
Defined.

Lemma pages_not_a_number_raises_witness :
  AddBooks.import_row (Samples.always (Samples.payload true))
                      (lit "http://127.0.0.1:8000/graphql/")
                      (Samples.dune_row "12.5") []
  = (AddBooks.Raise AddBooks.ValueError, []).
Proof.
  apply (@pages_not_a_number_raises
           (Samples.always (Samples.payload true))
           (lit "http://127.0.0.1:8000/graphql/")
           (Samples.dune_row "12.5") (lit "12.5") 46%N [] 0%Z 0%Z []).
  - reflexivity.
  - vm_compute. auto.
  - reflexivity.
  - reflexivity.
Defined.

(** ** Dates that are too long *)

Lemma utf8_length (s : str) (bs : list N) :
  Datetime.utf8 s = Some bs -> (List.length s <= List.length bs)%nat.
Proof.
  revert bs. induction s as [|c t IH]; intros bs H.
  - simpl. lia.
  - cbn [Datetime.utf8] in H.
    destruct (Datetime.utf8_char c) as [b|] eqn:Ec; [|discriminate].
    destruct (Datetime.utf8 t) as [bt|]; [|discriminate].
    inversion H; subst bs. rewrite length_app. cbn [List.length].
    specialize (IH bt eq_refl).
    assert (1 <= List.length b)%nat; [|lia].
    unfold Datetime.utf8_char in Ec.
    repeat match type of Ec with
           | (if ?x then _ else _) = _ => destruct x
           end;
      inversion Ec; subst b; cbn [List.length]; lia.
Qed.

Lemma fromisoformat_long (s : str) :
  (10 < List.length s)%nat -> Datetime.fromisoformat s = None.
Proof.
  intro H. unfold Datetime.fromisoformat.
  destruct (Datetime.utf8 s) as [bs|] eqn:E; [|reflexivity].
  apply utf8_length in E.
  replace (Nat.eqb (List.length bs) 7) with false
    by (symmetry; apply Nat.eqb_neq; lia).
  replace (Nat.eqb (List.length bs) 8) with false
    by (symmetry; apply Nat.eqb_neq; lia).
  replace (Nat.eqb (List.length bs) 10) with false
    by (symmetry; apply Nat.eqb_neq; lia).
  reflexivity.
Qed.

(** X20: a published_date of more than ten characters, such as a
    timestamp "2021-01-01T00:00:00" or a date with a trailing blank, is
    always refused: the payload is a failure that carries the date
    message, and the database is not contacted. *)
Theorem long_dates_rejected (a : Arguments) (d : db) :
  (10 < List.length (arg_published_date a))%nat ->
  exists p : CreateBook,
    mutate a d = (Ok p, d)
    /\ ok p = false /\ book p = None /\ In date_error (errors p).
Proof.
  intro H. apply fromisoformat_long in H.
  assert (Hin : In date_error
                   (fst (validate (arg_published_date a)
                                  (arg_isbn_number a)))).
  { rewrite validate_errors, H. apply in_or_app. right. left. reflexivity. }
  assert (Hne : fst (validate (arg_published_date a) (arg_isbn_number a))
                <> []).
  { intro E. rewrite E in Hin. destruct Hin. }
  rewrite (mutate_invalid a d Hne). eexists. split; [reflexivity|].
  simpl. auto.
Qed.

Lemma long_dates_rejected_witness :
  exists p : CreateBook,
    mutate (Samples.dune (lit "9780441013593") (lit "1965-08-01T00:00:00"))
           Samples.db_1984
    = (Ok p, Samples.db_1984)
    /\ ok p = false /\ book p = None /\ In date_error (errors p).
Proof.
  apply (@long_dates_rejected
           (Samples.dune (lit "9780441013593") (lit "1965-08-01T00:00:00"))
           Samples.db_1984).
  vm_compute. lia.
Defined.

(** ** [__str__] of the models *)

Lemma split_at_first_space (f1 f2 l1 l2 : str) :
  ~ In 32%N f1 -> ~ In 32%N f2 ->
  f1 ++ 32%N :: l1 = f2 ++ 32%N :: l2 -> f1 = f2 /\ l1 = l2.
Proof.
  revert f2. induction f1 as [|c f1 IH]; intros f2 H1 H2 E.
  - destruct f2 as [|c2 f2].
    + inversion E. auto.
    + inversion E; subst c2. elim H2. left. reflexivity.
  - destruct f2 as [|c2 f2].
    + inversion E; subst c. elim H1. left. reflexivity.
    + inversion E; subst c2.
      destruct (IH f2) as [-> ->]; auto.
      * intro H. apply H1. right. exact H.
      * intro H. apply H2. right. exact H.
Qed.

(** X21: what the admin and the shell show for a row.  A borrow record
    reads "<first name> <last name> borrowed <title>".  The string of a
    member gives back first and last name when no first name holds a
    blank, and not otherwise: a blank may be moved from the first name to
    the last without changing the string. *)
Theorem display_strings :
  (forall r : Display.BorrowRecord,
      Display.BorrowRecord_str r
      = Display.first_name (Display.user r) ++ lit " "
        ++ Display.last_name (Display.user r) ++ lit " borrowed "
        ++ title (Display.borrowed r))
  /\ (forall u1 u2 : Display.LibraryUser,
        ~ In 32%N (Display.first_name u1) ->
        ~ In 32%N (Display.first_name u2) ->
        Display.LibraryUser_str u1 = Display.LibraryUser_str u2 ->
        Display.first_name u1 = Display.first_name u2
        /\ Display.last_name u1 = Display.last_name u2)
  /\ (forall (f m l e : str) (d : Datetime.date),
        Display.LibraryUser_str
          (Display.mkLibraryUser (f ++ lit " " ++ m) l e d)
        = Display.LibraryUser_str
            (Display.mkLibraryUser f (m ++ lit " " ++ l) e d)).
Proof.
  split; [|split].
  - intro r. unfold Display.BorrowRecord_str, Display.LibraryUser_str,
      Display.Book_str. rewrite <- !app_assoc. reflexivity.
  - intros u1 u2 H1 H2 E. unfold Display.LibraryUser_str in E.
    apply (@split_at_first_space _ _ _ _ H1 H2 E).
  - intros f m l e d. unfold Display.LibraryUser_str. simpl.
    rewrite <- !app_assoc. reflexivity.
Qed.

Lemma display_strings_witness :
  Display.LibraryUser_str
    (Display.mkLibraryUser (lit "Mary Ann") (lit "Lee") (lit "m@x.org")
                           (Datetime.mkdate 2024 1 1))
  = Display.LibraryUser_str
      (Display.mkLibraryUser (lit "Mary") (lit "Ann Lee") (lit "m@x.org")
                             (Datetime.mkdate 2024 1 1)).
Proof.
  exact (proj2 (proj2 display_strings) (lit "Mary") (lit "Ann") (lit "Lee")
               (lit "m@x.org") (Datetime.mkdate 2024 1 1)).
Defined.
